(** * ISS tracker: a shallow embedding of [iss_tracker.py]

    The Flask handlers of [iss_tracker.py] are embedded as functions of the
    global [data] dictionary and of the request inputs.  Handlers return a
    value of an error monad, so that an uncaught Python exception is a
    result of the model and not a missing case.

    Numbers: Python [int] is [Z].  Python [float] is idealised as a real
    number ([R]): rounding, signed zeros, infinities and NaN are not
    modelled.  [math.sqrt] is [sqrt], [math.atan2] is the two-argument
    arctangent built from [atan]. *)

From Stdlib Require Import Reals Lra Lia ZArith List String Ascii Bool.
Import ListNotations.

Local Open Scope string_scope.
Local Open Scope Z_scope.

(** ** Python built-ins used by the program *)

Module Py.

(** The exceptions that the handlers can let escape. *)
Inductive exn : Type :=
| ValueError
| TypeError
| UnboundLocalError
| CollaboratorError.

Inductive result (A : Type) : Type :=
| Ok (a : A)
| Raise (e : exn).
Arguments Ok {A} a.
Arguments Raise {A} e.

Definition bind {A B : Type} (m : result A) (k : A -> result B) : result B :=
  match m with
  | Ok a => k a
  | Raise e => Raise e
  end.

(** A callee that answers [None] where Python raises [e]. *)
Definition orRaise {A : Type} (e : exn) (o : option A) : result A :=
  match o with
  | Some a => Ok a
  | None => Raise e
  end.

(** *** Sequence slicing, [l[lo:hi]] with step 1 *)

(** A slice bound is clamped into [0, n]; a negative bound counts from
    the end. *)
Definition slice_index (n i : Z) : Z :=
  if i <? 0 then Z.max 0 (i + n) else Z.min i n.

Definition slice {A : Type} (lo hi : option Z) (l : list A) : list A :=
  let n := Z.of_nat (List.length l) in
  let a := match lo with Some i => slice_index n i | None => 0 end in
  let b := match hi with Some i => slice_index n i | None => n end in
  firstn (Z.to_nat (b - a)) (skipn (Z.to_nat a) l).

Definition substr (lo hi : option Z) (s : string) : string :=
  string_of_list_ascii (slice lo hi (list_ascii_of_string s)).

(** *** Numeric literals: [int(str)] and [float(str)]

    Both strip surrounding white space, read an optional sign and then
    groups of decimal digits in which single underscores may separate
    digits.  Strings are byte strings here, and the model is that of
    CPython 3.11 on ASCII text: the non-ASCII digits and spaces that
    Python also accepts are outside the model.  For [float] the model
    gives the real number that the text writes: the rounding of that
    number to a float, which turns a text such as [1e999] into [inf] and
    [1e-999] into [0.0], the sign of a zero, and the literals [inf],
    [infinity] and [nan], which denote no real, are outside the model. *)

(** White space of an ASCII text, as [int] and [float] strip it: the
    characters 9 to 13 and the blank. *)
Definition is_space (c : ascii) : bool :=
  let n := nat_of_ascii c in
  (((9 <=? n) && (n <=? 13)) || (n =? 32))%nat.

Fixpoint lstrip (l : list ascii) : list ascii :=
  match l with
  | c :: l' => if is_space c then lstrip l' else l
  | [] => []
  end.

Definition strip (l : list ascii) : list ascii :=
  rev (lstrip (rev (lstrip l))).

Definition digit_val (c : ascii) : option Z :=
  let n := nat_of_ascii c in
  if ((48 <=? n) && (n <=? 57))%nat then Some (Z.of_nat n - 48) else None.

Definition is_underscore (c : ascii) : bool := Ascii.eqb c "_"%char.

(** Continues a digit group: [acc] is the value read so far, [cnt] the
    number of digits read so far.  Returns them with the unread rest. *)
Fixpoint digits_tail (acc : Z) (cnt : Z) (l : list ascii)
  : Z * Z * list ascii :=
  match l with
  | [] => (acc, cnt, [])
  | c :: l' =>
      match digit_val c with
      | Some d => digits_tail (10 * acc + d) (cnt + 1) l'
      | None =>
          if is_underscore c then
            match l' with
            | c2 :: l'' =>
                match digit_val c2 with
                | Some d => digits_tail (10 * acc + d) (cnt + 1) l''
                | None => (acc, cnt, l)
                end
            | [] => (acc, cnt, l)
            end
          else (acc, cnt, l)
      end
  end.

(** A digit group starts with a digit. *)
Definition digitpart (acc : Z) (l : list ascii)
  : option (Z * Z * list ascii) :=
  match l with
  | c :: l' =>
      match digit_val c with
      | Some d => Some (digits_tail (10 * acc + d) 1 l')
      | None => None
      end
  | [] => None
  end.

(** The optional sign: [1] or [-1], and the rest. *)
Definition sign (l : list ascii) : Z * list ascii :=
  match l with
  | c :: l' =>
      if Ascii.eqb c "-"%char then (-1, l')
      else if Ascii.eqb c "+"%char then (1, l')
      else (1, l)
  | [] => (1, [])
  end.

(** [sys.int_info.default_max_str_digits]: [int] refuses a text of more
    digits, leading zeros counted and underscores not. *)
Definition max_str_digits : Z := 4300.

(** [int(s)] in base 10; [None] is [ValueError]. *)
Definition int (s : string) : option Z :=
  let (sg, l) := sign (strip (list_ascii_of_string s)) in
  match digitpart 0 l with
  | Some (v, cnt, []) => if cnt <=? max_str_digits then Some (sg * v) else None
  | _ => None
  end.

(** The optional exponent of a float literal: its value and the rest;
    [None] when an [e] is not followed by a well-formed exponent. *)
Definition exponent (l : list ascii) : option (Z * list ascii) :=
  match l with
  | c :: l' =>
      if Ascii.eqb c "e"%char || Ascii.eqb c "E"%char then
        let (sg, l'') := sign l' in
        match digitpart 0 l'' with
        | Some (v, _, rest) => Some (sg * v, rest)
        | None => None
        end
      else Some (0, l)
  | [] => Some (0, [])
  end.

(** The digits of [number ::= [digitpart] "." digitpart | digitpart ["."]]:
    the integer made of all its digits, how many of them follow the
    point, and the rest. *)
Definition number (l : list ascii) : option (Z * Z * list ascii) :=
  match digitpart 0 l with
  | Some (ip, _, rest) =>
      match rest with
      | c :: rest' =>
          if Ascii.eqb c "."%char then
            match digitpart ip rest' with
            | Some r => Some r
            | None => Some (ip, 0, rest')
            end
          else Some (ip, 0, rest)
      | [] => Some (ip, 0, [])
      end
  | None =>
      match l with
      | c :: rest' =>
          if Ascii.eqb c "."%char then digitpart 0 rest' else None
      | [] => None
      end
  end.

(** A float literal as a decimal: [float_dec s = Some (m, e)] when [s]
    denotes [m * 10^e]. *)
Definition float_dec (s : string) : option (Z * Z) :=
  let (sg, l) := sign (strip (list_ascii_of_string s)) in
  match number l with
  | Some (m, frac, rest) =>
      match exponent rest with
      | Some (e, []) => Some (sg * m, e - frac)
      | _ => None
      end
  | None => None
  end.

(** [float(s)]; [None] is [ValueError]. *)
Definition float (s : string) : option R :=
  match float_dec s with
  | Some (m, e) => Some (IZR m * powerRZ 10 e)%R
  | None => None
  end.

(** *** [math] *)

Definition degrees (r : R) : R := (r * (180 / PI))%R.

(** [math.atan2(y, x)], by quadrant, on real numbers.  A real zero has no
    sign: on the negative X axis Python answers [-pi] for [y = -0.0]
    where this answers [PI]. *)
Definition atan2 (y x : R) : R :=
  if Rlt_dec 0 x then atan (y / x)
  else if Rlt_dec x 0 then
    if Rle_dec 0 y then (atan (y / x) + PI)%R else (atan (y / x) - PI)%R
  else
    if Rlt_dec 0 y then (PI / 2)%R
    else if Rlt_dec y 0 then (- (PI / 2))%R
    else 0%R.

(** Comparisons of floats, as booleans. *)
Definition le (x y : R) : bool := if Rle_dec x y then true else false.
Definition ge (x y : R) : bool := if Rge_dec x y then true else false.
Definition lt (x y : R) : bool := if Rlt_dec x y then true else false.

(** *** Values of a query parameter

    [request.args.get(name, 0)] is the text of the parameter when the
    request has it and the integer [0] otherwise, so the variables
    [offset] and [limit] hold an [int] or a [str]. *)
Inductive value : Type :=
| VInt (z : Z)
| VStr (s : string).

Definition args_get (a : option string) (default : Z) : value :=
  match a with
  | Some s => VStr s
  | None => VInt default
  end.

(** Truth value: [0] and the empty string are false. *)
Definition truthy (v : value) : bool :=
  match v with
  | VInt z => negb (z =? 0)
  | VStr s => negb (String.eqb s "")
  end.

(** [v == 0] and [v != 0]: a string is never equal to [0]. *)
Definition eq0 (v : value) : bool :=
  match v with
  | VInt z => z =? 0
  | VStr _ => false
  end.
Definition ne0 (v : value) : bool := negb (eq0 v).

(** [int(v)]. *)
Definition int_of (v : value) : result value :=
  match v with
  | VInt z => Ok (VInt z)
  | VStr s =>
      match int s with
      | Some z => Ok (VInt z)
      | None => Raise ValueError
      end
  end.

(** [v + w]. *)
Definition add (v w : value) : result value :=
  match v, w with
  | VInt a, VInt b => Ok (VInt (a + b))
  | VStr a, VStr b => Ok (VStr (a ++ b))
  | _, _ => Raise TypeError
  end.

(** A slice bound must be an integer (or absent). *)
Definition bound (b : option value) : result (option Z) :=
  match b with
  | None => Ok None
  | Some (VInt z) => Ok (Some z)
  | Some (VStr _) => Raise TypeError
  end.

(** [l[lo:hi]] with the bounds held in variables. *)
Definition getslice {A : Type} (l : list A) (lo hi : option value)
  : result (list A) :=
  bind (bound lo) (fun a => bind (bound hi) (fun b => Ok (slice a b l))).

End Py.

Notation "x <- m ;; k" := (Py.bind m (fun x => k))
  (at level 61, m at next level, right associativity).


(** ** The data set *)

(** A component of a state vector, [{'#text': ..., '@units': ...}]. *)
Record Quantity : Type := {
  text : string;
  units : string
}.

(** One entry of the [stateVector] list of the feed. *)
Record StateVector : Type := {
  EPOCH : string;
  X : Quantity;
  Y : Quantity;
  Z_ : Quantity;
  X_DOT : Quantity;
  Y_DOT : Quantity;
  Z_DOT : Quantity
}.

(** The part of the parsed feed that the handlers read,
    [data['ndm']['oem']['body']['segment']['data']]. *)
Record Oem : Type := {
  stateVector : list StateVector
}.

(** The global [data]: the empty dictionary ([None]) or the parsed feed. *)
Definition Data : Type := option Oem.

(** [bool(data)]. *)
Definition nonempty (data : Data) : bool :=
  match data with
  | Some _ => true
  | None => false
  end.

Definition MEAN_EARTH_RADIUS : R := 6371.

(** ** What a handler returns *)

Record Location : Type := {
  Latitude : R;
  Longitude : R;
  altitude : R;          (* [{'value': alt, 'units': 'km'}] *)
  geo : string
}.

Record Now : Type := {
  Closest_epoch : string;
  epochTime : R;
  Seconds_from_now : option R;   (* a float; [None] is [float('inf')] *)
  Location_ : Location;
  Speed : R              (* [{'#text': speed, '@units': 'km/s'}] *)
}.

Inductive Reply : Type :=
| Text (body : string)
| TextStatus (body : string) (status : Z)
| EpochList (epochs : list string)
| Json (sv : StateVector)        (* [json.dumps(x, indent=2)] *)
| SpeedDict (speed : R)          (* [{'Speed': {'#text': speed, '@units': 'km/s'}}] *)
| LocationDict (loc : Location)  (* [{'Location': {...}}] *)
| NowDict (now : Now).

Definition nl : string := String "010"%char EmptyString.

Definition cleared : string := "Data has been cleared." ++ nl.

Definition bad_offset : string :=
  "Bad input; please specify a positive integer for offset.".
Definition bad_limit : string :=
  "Bad input; please specify a positive integer for limit.".

Definition ocean : string := "Location may be over the ocean".

(** ** Handlers that need no collaborator *)

(** [if v: try: v = int(v) except ValueError: ...]: [None] is the
    [except] branch. *)
Definition parse_if_set (v : Py.value) : Py.result (option Py.value) :=
  if Py.truthy v then
    match Py.int_of v with
    | Py.Ok v' => Py.Ok (Some v')
    | Py.Raise Py.ValueError => Py.Ok None
    | Py.Raise e => Py.Raise e
    end
  else Py.Ok (Some v).

(** [GET /epochs]; [offset_arg] and [limit_arg] are the query parameters
    of the request, when present. *)
Definition showEpochs (data : Data) (offset_arg limit_arg : option string)
  : Py.result Reply :=
  let offset := Py.args_get offset_arg 0 in
  let limit := Py.args_get limit_arg 0 in
  match data with
  | None => Py.Ok (Text cleared)
  | Some d =>
      o <- parse_if_set offset ;;
      match o with
      | None => Py.Ok (TextStatus bad_offset 400)
      | Some offset =>
          l <- parse_if_set limit ;;
          match l with
          | None => Py.Ok (TextStatus bad_limit 400)
          | Some limit =>
              let epochs := map EPOCH (stateVector d) in
              if Py.ne0 offset && Py.ne0 limit then
                hi <- Py.add offset limit ;;
                epochs <- Py.getslice epochs (Some offset) (Some hi) ;;
                Py.Ok (EpochList epochs)
              else if Py.eq0 offset && Py.ne0 limit then
                hi <- Py.add offset limit ;;
                epochs <- Py.getslice epochs None (Some hi) ;;
                Py.Ok (EpochList epochs)
              else if Py.ne0 offset && Py.eq0 limit then
                epochs <- Py.getslice epochs (Some offset) None ;;
                Py.Ok (EpochList epochs)
              else Py.Ok (EpochList epochs)
          end
      end
  end.

(** The first entry of the list whose [EPOCH] is [epoch]: the entry at
    which a [for x in ...: if x['EPOCH'] == epoch: ... return] loop runs
    its body; [None] when the loop reaches its [else]. *)
Definition first_with_epoch (epoch : string) (svs : list StateVector)
  : option StateVector :=
  find (fun x => String.eqb (EPOCH x) epoch) svs.

(** [GET /epochs/<epoch>]. *)
Definition showStateVectors (data : Data) (epoch : string) : Py.result Reply :=
  match data with
  | None => Py.Ok (Text cleared)
  | Some d =>
      match first_with_epoch epoch (stateVector d) with
      | Some x => Py.Ok (Json x)
      | None =>
          Py.Ok (Text ("Epoch " ++ epoch ++ " cannot be found in the data set" ++ nl))
      end
  end.

(** [float(q['#text'])]. *)
Definition float_text (q : Quantity) : Py.result R :=
  Py.orRaise Py.ValueError (Py.float (text q)).

(** [math.sqrt(a**2 + b**2 + c**2)], on real numbers.  The squares are
    exact here: as a float a square underflows to zero for a component
    below about [2^-537] in size and raises [OverflowError] for one of
    [2^512] or more. *)
Definition norm3 (a b c : R) : R := sqrt (a ^ 2 + b ^ 2 + c ^ 2).

(** [GET /epochs/<epoch>/speed]. *)
Definition showSpeed (data : Data) (epoch : string) : Py.result Reply :=
  match data with
  | None => Py.Ok (Text cleared)
  | Some d =>
      match first_with_epoch epoch (stateVector d) with
      | Some x =>
          x_dot <- float_text (X_DOT x) ;;
          y_dot <- float_text (Y_DOT x) ;;
          z_dot <- float_text (Z_DOT x) ;;
          let speed := norm3 x_dot y_dot z_dot in
          Py.Ok (SpeedDict speed)
      | None =>
          Py.Ok (Text ("Epoch " ++ epoch ++ " was not found in the data set" ++ nl))
      end
  end.

(** [DELETE /delete-data]: [data.clear()]. *)
Definition deleteData (data : Data) : Data * Reply :=
  (None, Text ("The data has now been cleared" ++ nl)).

(** [POST /post-data]; [feed] is what the download parses to. *)
Definition postData (feed : Data) (data : Data) : Data * Reply :=
  (feed, Text ("The data has now been reloaded to dictionary" ++ nl)).

(** ** The geodetic projection *)

(** [math.degrees(math.atan2(z, math.sqrt(x**2 + y**2)))], on real
    numbers, with exact squares as in [norm3]. *)
Definition latitude (x y z : R) : R :=
  Py.degrees (Py.atan2 z (sqrt (x ^ 2 + y ^ 2))).

(** [math.degrees(math.atan2(y, x)) - ((hrs-12)+(mins/60))*(360/24) + 24]. *)
Definition raw_longitude (x y hrs mins : R) : R :=
  (Py.degrees (Py.atan2 y x) - ((hrs - 12) + (mins / 60)) * (360 / 24) + 24)%R.

(** [if (lon <= 180 and lon >= -180): lon = lon else: lon = -180+(lon-180)]. *)
Definition wrap_longitude (lon : R) : R :=
  if Py.le lon 180 && Py.ge lon (-180) then lon
  else (-180 + (lon - 180))%R.

(** [math.sqrt(x**2 + y**2 + z**2) - MEAN_EARTH_RADIUS]. *)
Definition altitude_km (x y z : R) : R :=
  (norm3 x y z - MEAN_EARTH_RADIUS)%R.

(** [float(epoch[9:-11])] and [float(epoch[12:-8])]. *)
Definition hours_of (epoch : string) : Py.result R :=
  Py.orRaise Py.ValueError (Py.float (Py.substr (Some 9) (Some (-11)) epoch)).
Definition minutes_of (epoch : string) : Py.result R :=
  Py.orRaise Py.ValueError (Py.float (Py.substr (Some 12) (Some (-8)) epoch)).

(** ** Handlers that call a collaborator *)

(** The state of the first loop of [getNowLoc].  [smallest_diff] starts at
    [float('inf')], which is [None]; the other three variables are unbound
    ([None]) until the loop body has run. *)
Record Scan : Type := {
  smallest_diff : option R;
  now_epoch : option string;
  epoch_ : option string;
  epoch_time : option R
}.

Definition scan_start : Scan :=
  {| smallest_diff := None; now_epoch := None;
     epoch_ := None; epoch_time := None |}.

(** [a < smallest_diff]. *)
Definition below (a : R) (smallest : option R) : bool :=
  match smallest with
  | None => true
  | Some m => Py.lt a m
  end.

Section Collaborators.

(** [geocoder.reverse((lat, lon), zoom=zoom, language='en')] of geopy's
    Nominatim, as the text [str] gives of its answer; [None] is Python's
    [None].  The call goes over the network and can raise. *)
Variable reverse : R -> R -> Z -> Py.result (option string).

(** [time.mktime(time.strptime(s, '%Y-%jT%H:%M:%S'))], the seconds since
    the Unix epoch of a local time; [None] is [ValueError]. *)
Variable mktime_strptime : string -> option R.

(** [GET /epochs/<epoch>/location]. *)
Definition getLocation (data : Data) (epoch : string) : Py.result Reply :=
  match data with
  | None => Py.Ok (Text cleared)
  | Some d =>
      match first_with_epoch epoch (stateVector d) with
      | Some i =>
          x <- float_text (X i) ;;
          y <- float_text (Y i) ;;
          z <- float_text (Z_ i) ;;
          hrs <- hours_of epoch ;;
          mins <- minutes_of epoch ;;
          let lat := latitude x y z in
          let lon := wrap_longitude (raw_longitude x y hrs mins) in
          let alt := altitude_km x y z in
          geoloc <- reverse lat lon 1 ;;
          match geoloc with
          | None =>
              Py.Ok (LocationDict {| Latitude := lat; Longitude := lon;
                                     altitude := alt; geo := ocean |})
          | Some place =>
              Py.Ok (LocationDict {| Latitude := lat; Longitude := lon;
                                     altitude := alt; geo := place |})
          end
      | None =>
          Py.Ok (Text ("Epoch " ++ epoch ++ " was not found in the data set" ++ nl))
      end
  end.

(** [time.mktime(time.strptime(epoch[:-5], '%Y-%jT%H:%M:%S'))]. *)
Definition seconds_of (epoch : string) : option R :=
  mktime_strptime (Py.substr None (Some (-5)) epoch).

(** The first loop of [getNowLoc], from state [st] over the entries
    [svs] still to visit. *)
Fixpoint scan (time_now : R) (svs : list StateVector) (st : Scan)
  : Py.result Scan :=
  match svs with
  | [] => Py.Ok st
  | sv :: rest =>
      let epoch := EPOCH sv in
      t <- Py.orRaise Py.ValueError (seconds_of epoch) ;;
      let diff := (t - time_now)%R in
      if below (Rabs diff) (smallest_diff st) then
        scan time_now rest
          {| smallest_diff := Some (Rabs diff); now_epoch := Some epoch;
             epoch_ := Some epoch; epoch_time := Some t |}
      else
        scan time_now rest
          {| smallest_diff := smallest_diff st; now_epoch := now_epoch st;
             epoch_ := Some epoch; epoch_time := Some t |}
  end.

(** Reading a local variable. *)
Definition local {A : Type} (v : option A) : Py.result A :=
  Py.orRaise Py.UnboundLocalError v.

(** The [else] of the second loop of [getNowLoc]. *)
Definition now_not_found (st : Scan) : Py.result Reply :=
  epoch <- local (epoch_ st) ;;
  Py.Ok (Text ("Epoch " ++ epoch ++ " was not found in the data set" ++ nl)).

(** The body of the second loop of [getNowLoc] at the entry [i] it
    matches, with the variables the first loop has left in [st]. *)
Definition now_body (st : Scan) (i : StateVector) : Py.result Reply :=
  x <- float_text (X i) ;;
  y <- float_text (Y i) ;;
  z <- float_text (Z_ i) ;;
  epoch <- local (epoch_ st) ;;
  hrs <- hours_of epoch ;;
  mins <- minutes_of epoch ;;
  let lat := latitude x y z in
  let lon := wrap_longitude (raw_longitude x y hrs mins) in
  let alt := altitude_km x y z in
  geoloc <- reverse lat lon 10 ;;
  x_dot <- float_text (X_DOT i) ;;
  y_dot <- float_text (Y_DOT i) ;;
  z_dot <- float_text (Z_DOT i) ;;
  let speed := norm3 x_dot y_dot z_dot in
  now_epoch <- local (now_epoch st) ;;
  epoch_time <- local (epoch_time st) ;;
  match geoloc with
  | None =>
      Py.Ok (NowDict {| Closest_epoch := now_epoch; epochTime := epoch_time;
                        Seconds_from_now := smallest_diff st;
                        Location_ := {| Latitude := lat; Longitude := lon;
                                        altitude := alt; geo := ocean |};
                        Speed := speed |})
  | Some place =>
      Py.Ok (NowDict {| Closest_epoch := now_epoch; epochTime := epoch_time;
                        Seconds_from_now := smallest_diff st;
                        Location_ := {| Latitude := lat; Longitude := lon;
                                        altitude := alt; geo := place |};
                        Speed := speed |})
  end.

(** [GET /now]; [time_now] is what [time.time()] returns. *)
Definition getNowLoc (data : Data) (time_now : R) : Py.result Reply :=
  match data with
  | None => Py.Ok (Text cleared)
  | Some d =>
      let state_vector := stateVector d in
      st <- scan time_now state_vector scan_start ;;
      match state_vector with
      | [] => now_not_found st
      | _ :: _ =>
          now_epoch <- local (now_epoch st) ;;
          match first_with_epoch now_epoch state_vector with
          | Some i => now_body st i
          | None => now_not_found st
          end
      end
  end.

End Collaborators.

(** ** Collaborators for worked examples *)

(** A geocoder that finds no place anywhere. *)
Definition no_place (lat lon : R) (zoom : Z) : Py.result (option string) :=
  Py.Ok None.

(** A geocoder that answers every request with a fixed place. *)
Definition some_place (place : string) (lat lon : R) (zoom : Z)
  : Py.result (option string) :=
  Py.Ok (Some place).

Fixpoint decimal (acc : Z) (l : list ascii) : option Z :=
  match l with
  | [] => Some acc
  | c :: l' =>
      match Py.digit_val c with
      | Some d => decimal (10 * acc + d) l'
      | None => None
      end
  end.

(** The decimal number written in [s[lo:hi]], all of whose characters must
    be digits. *)
Definition field (lo hi : Z) (s : string) : option Z :=
  let l := Py.slice (Some lo) (Some hi) (list_ascii_of_string s) in
  if Z.of_nat (List.length l) =? hi - lo then decimal 0 l else None.

Definition separator (at_ : Z) (c : ascii) (s : string) : bool :=
  match Py.slice (Some at_) (Some (at_ + 1)) (list_ascii_of_string s) with
  | [c'] => Ascii.eqb c c'
  | _ => false
  end.

(** Days from 1970-01-01 to the first of January of year [y]. *)
Definition days_before_year (y : Z) : Z :=
  365 * (y - 1970) + (y - 1969) / 4 - (y - 1901) / 100 + (y - 1601) / 400.

(** The conversion of a time stamp [YYYY-DDDTHH:MM:SS] by a process whose
    local time zone is UTC. *)
Definition utc_seconds (s : string) : option Z :=
  if (Z.of_nat (String.length s) =? 17)
     && separator 4 "-" s && separator 8 "T" s
     && separator 11 ":" s && separator 14 ":" s
  then
    match field 0 4 s, field 5 8 s, field 9 11 s, field 12 14 s, field 15 17 s with
    | Some y, Some j, Some h, Some m, Some sec =>
        if (1 <=? j) && (j <=? 366) && (h <? 24) && (m <? 60) && (sec <=? 61)
        then Some (((days_before_year y + (j - 1)) * 24 + h) * 3600 + m * 60 + sec)
        else None
    | _, _, _, _, _ => None
    end
  else None.

Definition utc_mktime (s : string) : option R :=
  option_map IZR (utc_seconds s).

(** A state vector from its time stamp and the texts of its components. *)
Definition vector (epoch px py pz vx vy vz : string) : StateVector :=
  {| EPOCH := epoch;
     X := {| text := px; units := "km" |};
     Y := {| text := py; units := "km" |};
     Z_ := {| text := pz; units := "km" |};
     X_DOT := {| text := vx; units := "km/s" |};
     Y_DOT := {| text := vy; units := "km/s" |};
     Z_DOT := {| text := vz; units := "km/s" |} |}.

(** ** Predicates of the statements *)

(** The parameter [a] of a request denotes the integer [z]: it is absent
    and [z] is the default [0], or its text is an integer literal. *)
Definition int_arg (a : option string) (z : Z) : Prop :=
  (a = None /\ z = 0) \/ (exists s, a = Some s /\ Py.int s = Some z).


(** With the conversion [seconds] of epochs to times: the state vector
    [sv] is at a distance of more than [m] from [time_now], or of at least
    [m], if its epoch converts at all; and its epoch does convert. *)
Definition farther (seconds : string -> option R) (time_now m : R)
    (sv : StateVector) : Prop :=
  forall t, seconds (EPOCH sv) = Some t -> (m < Rabs (t - time_now))%R.
Definition no_nearer (seconds : string -> option R) (time_now m : R)
    (sv : StateVector) : Prop :=
  forall t, seconds (EPOCH sv) = Some t -> (m <= Rabs (t - time_now))%R.
Definition converts (seconds : string -> option R) (sv : StateVector) : Prop :=
  seconds (EPOCH sv) <> None.

(** ** Data sets of the worked examples *)

(** Three state vectors four minutes apart, as in the feed. *)
Definition series3 : Oem :=
  {| stateVector :=
       [ vector "2023-050T12:00:00.000Z" "7000" "0" "0" "1" "0" "0";
         vector "2023-050T12:04:00.000Z" "0" "7000" "0" "0" "1" "0";
         vector "2023-050T12:08:00.000Z" "0" "0" "7000" "0" "0" "1" ] |}.

(** The scenario of a single state vector, its time stamp in the format
    of the feed. *)
Definition sample_noon : StateVector :=
  vector "2023-050T12:00:00.000Z" "7000" "0" "0" "1" "0" "0".
Definition scenario : Oem := {| stateVector := [sample_noon] |}.

(** The same scenario with the time stamp cut after the seconds. *)
Definition sample_noon_short : StateVector :=
  vector "2023-050T12:00:00" "7000" "0" "0" "1" "0" "0".
Definition scenario_short : Oem := {| stateVector := [sample_noon_short] |}.

(** A state vector late in the day, over the negative Y axis. *)
Definition sample_late : StateVector :=
  vector "2023-050T23:59:00.000Z" "0" "-7000" "0" "1" "0" "0".
Definition late : Oem := {| stateVector := [sample_late] |}.

(** Two state vectors four minutes apart. *)
Definition sample_next : StateVector :=
  vector "2023-050T12:04:00.000Z" "7000" "0" "0" "1" "0" "0".
Definition pair : Oem := {| stateVector := [sample_noon; sample_next] |}.

(** ** Further definitions for the statements and examples *)

(** [s.isascii()]: every character of [s] is below 128.  On such strings
    the bytes of the model are the characters of Python. *)
Definition isascii (s : string) : bool :=
  forallb (fun c => (nat_of_ascii c <? 128)%nat) (list_ascii_of_string s).

(** A series in which an epoch occurs twice, with different velocities. *)
Definition doubled : Oem :=
  {| stateVector :=
       [ vector "2023-050T12:00:00.000Z" "7000" "0" "0" "1" "0" "0";
         vector "2023-050T12:04:00.000Z" "0" "7000" "0" "0" "1" "0";
         vector "2023-050T12:04:00.000Z" "0" "0" "7000" "3" "4" "0" ] |}.

(** A geocoder that cannot be reached: every request raises. *)
Definition no_service (lat lon : R) (zoom : Z) : Py.result (option string) :=
  Py.Raise Py.CollaboratorError.

(** A series whose second epoch has a blank where the feed has a [T]. *)
Definition damaged : Oem :=
  {| stateVector :=
       [ vector "2023-050T12:00:00.000Z" "7000" "0" "0" "1" "0" "0";
         vector "2023-050 12:04:00.000Z" "0" "7000" "0" "0" "1" "0";
         vector "2023-050T12:08:00.000Z" "0" "0" "7000" "0" "0" "1" ] |}.

(** A component whose square neither underflows nor overflows as a
    float: zero, or of a size from [2^-500] to [2^500]. *)
Definition squares_safely (c : R) : Prop :=
  c = 0%R \/ (/ 2 ^ 500 <= Rabs c <= 2 ^ 500)%R.

(** The series of one state vector. *)
Definition alone (sv : StateVector) : Oem := {| stateVector := [sv] |}.
(** * Properties *)

Example slice_ex1 : Py.slice (Some 1) (Some 3) [10; 20; 30; 40] = [20; 30].
Proof. reflexivity. Qed.
Example slice_ex2 : Py.slice (Some (-1)) None [10; 20; 30; 40] = [40].
Proof. reflexivity. Qed.
Example slice_ex3 : Py.slice None (Some (-1)) [10; 20; 30; 40] = [10; 20; 30].
Proof. reflexivity. Qed.
Example slice_ex4 : Py.slice (Some 7) (Some 9) [10; 20; 30; 40] = [].
Proof. reflexivity. Qed.
Example substr_ex1 : Py.substr (Some 9) (Some (-11)) "2023-050T12:34:56.000Z" = "12".
Proof. reflexivity. Qed.
Example substr_ex2 : Py.substr (Some 12) (Some (-8)) "2023-050T12:34:56.000Z" = "34".
Proof. reflexivity. Qed.
Example substr_ex3 : Py.substr None (Some (-5)) "2023-050T12:34:56.000Z" = "2023-050T12:34:56".
Proof. reflexivity. Qed.
Example int_ex1 : Py.int "42" = Some 42. Proof. reflexivity. Qed.
Example int_ex2 : Py.int " -1_0 " = Some (-10). Proof. reflexivity. Qed.
Example int_ex3 : Py.int "4x" = None. Proof. reflexivity. Qed.
Example int_ex4 : Py.int "" = None. Proof. reflexivity. Qed.
Example int_ex5 : Py.int "1__0" = None. Proof. reflexivity. Qed.
Example int_ex6 : Py.int "1.5" = None. Proof. reflexivity. Qed.
Example int_ex7 : Py.int (String "028" "1") = None. Proof. reflexivity. Qed.
Example int_ex8 : Py.int (String "009" "1") = Some 1. Proof. reflexivity. Qed.
Example float_ex1 : Py.float_dec "-4945.3250" = Some (-49453250, -4). Proof. reflexivity. Qed.
Example float_ex2 : Py.float_dec "1e3" = Some (1, 3). Proof. reflexivity. Qed.
Example float_ex3 : Py.float_dec "" = None. Proof. reflexivity. Qed.
Example float_ex4 : Py.float_dec ".5" = Some (5, -1). Proof. reflexivity. Qed.
Example float_ex5 : Py.float_dec "5." = Some (5, 0). Proof. reflexivity. Qed.
Example float_ex6 : Py.float_dec "." = None. Proof. reflexivity. Qed.
Example float_ex7 : Py.float_dec "1e" = None. Proof. reflexivity. Qed.
Example float_ex8 : Py.float_dec "00" = Some (0, 0). Proof. reflexivity. Qed.
Example float_ex9 : Py.float_dec (String "028" "7000") = None. Proof. reflexivity. Qed.
Example utc_ex1 : utc_seconds "2023-050T12:00:00" = Some 1676808000.
Proof. reflexivity. Qed.
Example utc_ex2 : utc_seconds "1970-001T00:00:00" = Some 0.
Proof. reflexivity. Qed.
Example utc_ex3 : utc_seconds "2023-050T12:00" = None.
Proof. reflexivity. Qed.

(** ** Slices *)

Lemma slice_index_range (n i : Z) :
  0 <= n -> 0 <= Py.slice_index n i <= n.
Proof.
  intros Hn. unfold Py.slice_index.
  destruct (Z.ltb_spec i 0); lia.
Qed.

(** The length of a slice, from its clamped bounds. *)
Lemma slice_length {A : Type} (lo hi : option Z) (l : list A) :
  let n := Z.of_nat (List.length l) in
  let a := match lo with Some i => Py.slice_index n i | None => 0 end in
  let b := match hi with Some i => Py.slice_index n i | None => n end in
  Z.of_nat (List.length (Py.slice lo hi l)) = Z.max 0 (b - a).
Proof.
  intros n a b. unfold Py.slice. fold n. fold a. fold b.
  rewrite length_firstn, length_skipn.
  assert (Hn : 0 <= n) by (unfold n; lia).
  assert (Ha : 0 <= a <= n).
  { unfold a. destruct lo; [apply slice_index_range; exact Hn | lia]. }
  assert (Hb : 0 <= b <= n).
  { unfold b. destruct hi; [apply slice_index_range; exact Hn | lia]. }
  fold n. lia.
Qed.

Lemma slice_all {A : Type} (l : list A) : Py.slice None None l = l.
Proof.
  unfold Py.slice. simpl. rewrite Z.sub_0_r, Nat2Z.id. apply firstn_all.
Qed.

(** ** Query parameters *)

Lemma truthy_int_literal (s : string) (z : Z) :
  Py.int s = Some z -> Py.truthy (Py.VStr s) = true.
Proof.
  intros H. simpl. destruct (String.eqb_spec s ""); [| reflexivity].
  subst s. discriminate H.
Qed.

Lemma parse_int_arg (a : option string) (z : Z) :
  int_arg a z -> parse_if_set (Py.args_get a 0) = Py.Ok (Some (Py.VInt z)).
Proof.
  intros [[-> ->] | (s & -> & Hs)].
  - reflexivity.
  - unfold parse_if_set, Py.args_get.
    rewrite (truthy_int_literal s z Hs). simpl. rewrite Hs. reflexivity.
Qed.

(** A parameter that is present, not empty and not an integer literal is
    answered with the 400 reply that names the parameter. *)
Lemma showEpochs_bad_offset (d : Oem) (s : string) (limit_arg : option string) :
  s <> "" -> Py.int s = None ->
  showEpochs (Some d) (Some s) limit_arg = Py.Ok (TextStatus bad_offset 400).
Proof.
  intros Hne Hs. unfold showEpochs, parse_if_set, Py.args_get. simpl.
  destruct (String.eqb_spec s ""); [contradiction |]. simpl.
  rewrite Hs. reflexivity.
Qed.

Lemma showEpochs_bad_limit (d : Oem) (offset_arg : option string) (o : Z) (s : string) :
  int_arg offset_arg o -> s <> "" -> Py.int s = None ->
  showEpochs (Some d) offset_arg (Some s) = Py.Ok (TextStatus bad_limit 400).
Proof.
  intros Ho Hne Hs. unfold showEpochs.
  rewrite (parse_int_arg _ _ Ho). simpl.
  unfold parse_if_set. simpl.
  destruct (String.eqb_spec s ""); [contradiction |]. simpl.
  rewrite Hs. reflexivity.
Qed.

(** ** Listing the epochs *)

(** C3: for integer parameters [offset >= 0] and [limit >= 0] and a series
    of [n] state vectors, [showEpochs] returns a list of epochs which has
    [max 0 (min limit (n - offset))] elements when both parameters are not
    zero, [min limit n] when only [limit] is not zero,
    [max 0 (n - offset)] when only [offset] is not zero, and which is the
    list of all epochs, in the order of the series, when both are absent
    or zero. *)
Theorem showEpochs_length (d : Oem) (offset_arg limit_arg : option string)
    (offset limit : Z) :
  int_arg offset_arg offset -> int_arg limit_arg limit ->
  0 <= offset -> 0 <= limit ->
  let n := Z.of_nat (List.length (stateVector d)) in
  exists epochs,
    showEpochs (Some d) offset_arg limit_arg = Py.Ok (EpochList epochs) /\
    (offset <> 0 -> limit <> 0 ->
     Z.of_nat (List.length epochs) = Z.max 0 (Z.min limit (n - offset))) /\
    (offset = 0 -> limit <> 0 ->
     Z.of_nat (List.length epochs) = Z.min limit n) /\
    (offset <> 0 -> limit = 0 ->
     Z.of_nat (List.length epochs) = Z.max 0 (n - offset)) /\
    (offset = 0 -> limit = 0 -> epochs = map EPOCH (stateVector d)).
Proof.
  intros Ho Hl Hop Hlp n.
  assert (Hn : Z.of_nat (List.length (map EPOCH (stateVector d))) = n)
    by (rewrite length_map; reflexivity).
  unfold showEpochs.
  rewrite (parse_int_arg _ _ Ho). simpl.
  rewrite (parse_int_arg _ _ Hl). simpl.
  unfold Py.ne0. simpl.
  destruct (Z.eqb_spec offset 0) as [-> | Hoz];
    destruct (Z.eqb_spec limit 0) as [-> | Hlz]; simpl.
  - eexists. split; [reflexivity |]. repeat split; intros; try lia; reflexivity.
  - eexists. split; [reflexivity |]. repeat split; intros; try lia.
    rewrite slice_length, Hn. unfold Py.slice_index.
    destruct (Z.ltb_spec limit 0); lia.
  - eexists. split; [reflexivity |]. repeat split; intros; try lia.
    rewrite slice_length, Hn. unfold Py.slice_index.
    destruct (Z.ltb_spec offset 0); lia.
  - eexists. split; [reflexivity |]. repeat split; intros; try lia.
    rewrite slice_length, Hn. unfold Py.slice_index.
    destruct (Z.ltb_spec offset 0); destruct (Z.ltb_spec (offset + limit) 0); lia.
Qed.

(** C3 at a series of three with [offset=1] and [limit=5]. *)
Lemma showEpochs_length_witness :
  int_arg (Some "1") 1 /\ int_arg (Some "5") 5 /\ 0 <= 1 /\ 0 <= 5 /\
  exists epochs,
    showEpochs (Some series3) (Some "1") (Some "5") = Py.Ok (EpochList epochs) /\
    Z.of_nat (List.length epochs) = 2.
Proof.
  assert (H1 : int_arg (Some "1") 1) by (right; exists "1"; split; reflexivity).
  assert (H5 : int_arg (Some "5") 5) by (right; exists "5"; split; reflexivity).
  assert (P1 : 0 <= 1) by lia.
  assert (P5 : 0 <= 5) by lia.
  repeat (split; [assumption |]).
  destruct (showEpochs_length series3 (Some "1") (Some "5") 1 5 H1 H5 P1 P5)
    as (epochs & Heq & Hboth & _).
  exists epochs. split; [exact Heq |].
  rewrite Hboth; [reflexivity | lia | lia].
Defined.

(** C10: on the empty store [showEpochs] answers that the data has been
    cleared whatever the [offset] and [limit] parameters are, parseable or
    not: emptiness is tested before the parameters are read as integers. *)
Theorem showEpochs_empty_first (offset_arg limit_arg : option string) :
  showEpochs None offset_arg limit_arg = Py.Ok (Text cleared).
Proof. reflexivity. Qed.

(** C4, at the failing inputs: a negative [offset] or [limit] is not
    refused but used as a slice bound that counts from the end of the
    list, and an empty parameter text is left unparsed and raises
    [TypeError] when the list is sliced. *)
Theorem showEpochs_negative_not_refused :
  showEpochs (Some series3) (Some "-1") None
    = Py.Ok (EpochList ["2023-050T12:08:00.000Z"]) /\
  showEpochs (Some series3) None (Some "-1")
    = Py.Ok (EpochList ["2023-050T12:00:00.000Z"; "2023-050T12:04:00.000Z"]) /\
  showEpochs (Some series3) (Some "") None = Py.Raise Py.TypeError.
Proof. repeat split; reflexivity. Qed.

(** ** Exact lookup *)

Lemma first_with_epoch_some (epoch : string) (svs : list StateVector) (x : StateVector) :
  first_with_epoch epoch svs = Some x -> In x svs /\ EPOCH x = epoch.
Proof.
  intros H. apply find_some in H. destruct H as [Hin Heq].
  split; [exact Hin | apply String.eqb_eq; exact Heq].
Qed.

Lemma first_with_epoch_none (epoch : string) (svs : list StateVector) :
  first_with_epoch epoch svs = None <->
  forall x, In x svs -> EPOCH x <> epoch.
Proof.
  split.
  - intros H x Hin Heq.
    pose proof (find_none _ _ H x Hin) as Hx. simpl in Hx.
    apply String.eqb_neq in Hx. contradiction.
  - intros H. unfold first_with_epoch.
    induction svs as [| y svs IH]; [reflexivity |]. simpl.
    destruct (String.eqb_spec (EPOCH y) epoch) as [Heq | _].
    + exfalso. apply (H y); [left; reflexivity | exact Heq].
    + apply IH. intros x Hin. apply H. right. exact Hin.
Qed.

(** In a series without duplicate epochs an epoch names one entry. *)
Lemma epoch_unique (svs : list StateVector) (x y : StateVector) :
  NoDup (map EPOCH svs) -> In x svs -> In y svs -> EPOCH x = EPOCH y -> x = y.
Proof.
  induction svs as [| z svs IH]; simpl; intros Hnd Hx Hy Heq; [contradiction |].
  inversion Hnd as [| ? ? Hnotin Hnd']; subst.
  destruct Hx as [-> | Hx]; destruct Hy as [-> | Hy].
  - reflexivity.
  - exfalso. apply Hnotin. rewrite Heq. apply in_map. exact Hy.
  - exfalso. apply Hnotin. rewrite <- Heq. apply in_map. exact Hx.
  - apply IH; assumption.
Qed.

(** C7: in a series without duplicate epochs, [showStateVectors] returns
    the one state vector whose [EPOCH] is the requested string when there is
    one, and otherwise the message that the epoch cannot be found, with
    the requested string in it. *)
Theorem showStateVectors_exact (d : Oem) (epoch : string) :
  NoDup (map EPOCH (stateVector d)) ->
  (forall sv, In sv (stateVector d) -> EPOCH sv = epoch ->
     showStateVectors (Some d) epoch = Py.Ok (Json sv) /\
     forall sv', In sv' (stateVector d) -> EPOCH sv' = epoch -> sv' = sv) /\
  ((forall sv, In sv (stateVector d) -> EPOCH sv <> epoch) ->
     showStateVectors (Some d) epoch
     = Py.Ok (Text ("Epoch " ++ epoch ++ " cannot be found in the data set" ++ nl))).
Proof.
  intros Hnd. split.
  - intros sv Hin Heq. split.
    + unfold showStateVectors.
      destruct (first_with_epoch epoch (stateVector d)) as [x |] eqn:Hf.
      * apply first_with_epoch_some in Hf. destruct Hf as [Hx Hxe].
        rewrite (epoch_unique _ x sv Hnd Hx Hin); [reflexivity | congruence].
      * exfalso. rewrite first_with_epoch_none in Hf. exact (Hf sv Hin Heq).
    + intros sv' Hin' Heq'. apply (epoch_unique _ sv' sv Hnd Hin' Hin). congruence.
  - intros Hnone. unfold showStateVectors.
    apply first_with_epoch_none in Hnone. rewrite Hnone. reflexivity.
Qed.

(** C7 at the series of three: its second epoch is found, an epoch that
    lacks the fraction of a second is not. *)
Lemma showStateVectors_exact_witness :
  NoDup (map EPOCH (stateVector series3)) /\
  showStateVectors (Some series3) "2023-050T12:04:00.000Z"
    = Py.Ok (Json (vector "2023-050T12:04:00.000Z" "0" "7000" "0" "0" "1" "0")) /\
  showStateVectors (Some series3) "2023-050T12:04:00"
    = Py.Ok (Text ("Epoch 2023-050T12:04:00 cannot be found in the data set" ++ nl)).
Proof.
  assert (Hnd : NoDup (map EPOCH (stateVector series3))).
  { simpl. repeat constructor; simpl; intuition discriminate. }
  split; [exact Hnd |].
  destruct (showStateVectors_exact series3 "2023-050T12:04:00.000Z" Hnd) as [Hfound _].
  destruct (showStateVectors_exact series3 "2023-050T12:04:00" Hnd) as [_ Hmiss].
  split.
  - apply Hfound; [simpl; auto | reflexivity].
  - apply Hmiss. simpl. intros sv [<- | [<- | [<- | []]]]; discriminate.
Defined.

(** ** Arithmetic of the projection *)

Lemma le_true (x y : R) : (x <= y)%R -> Py.le x y = true.
Proof. intros H. unfold Py.le. destruct (Rle_dec x y); [reflexivity | contradiction]. Qed.

Lemma le_false (x y : R) : (y < x)%R -> Py.le x y = false.
Proof. intros H. unfold Py.le. destruct (Rle_dec x y); [lra | reflexivity]. Qed.

Lemma ge_true (x y : R) : (y <= x)%R -> Py.ge x y = true.
Proof. intros H. unfold Py.ge. destruct (Rge_dec x y); [reflexivity | lra]. Qed.

Lemma ge_false (x y : R) : (x < y)%R -> Py.ge x y = false.
Proof. intros H. unfold Py.ge. destruct (Rge_dec x y); [lra | reflexivity]. Qed.

Lemma lt_true (x y : R) : (x < y)%R -> Py.lt x y = true.
Proof. intros H. unfold Py.lt. destruct (Rlt_dec x y); [reflexivity | contradiction]. Qed.

Lemma lt_false (x y : R) : (y <= x)%R -> Py.lt x y = false.
Proof. intros H. unfold Py.lt. destruct (Rlt_dec x y); [lra | reflexivity]. Qed.

(** A longitude that is in range is kept. *)
Lemma wrap_longitude_inside (lon : R) :
  (-180 <= lon <= 180)%R -> wrap_longitude lon = lon.
Proof.
  intros [Hlo Hhi]. unfold wrap_longitude.
  rewrite (le_true _ _ Hhi), (ge_true _ _ Hlo). reflexivity.
Qed.

(** Any other longitude is moved down by a full turn, on both sides. *)
Lemma wrap_longitude_outside (lon : R) :
  (lon < -180 \/ 180 < lon)%R -> wrap_longitude lon = (lon - 360)%R.
Proof.
  intros H. unfold wrap_longitude.
  destruct H as [H | H].
  - rewrite (ge_false _ _ H), andb_false_r. lra.
  - rewrite (le_false _ _ H). simpl. lra.
Qed.

(** On the east side the remapping does bring the longitude in range. *)
Lemma wrap_longitude_east (lon : R) :
  (-180 <= lon <= 540)%R -> (-180 <= wrap_longitude lon <= 180)%R.
Proof.
  intros H. destruct (Rle_dec lon 180) as [Hle | Hgt].
  - rewrite wrap_longitude_inside; lra.
  - rewrite wrap_longitude_outside; lra.
Qed.

Lemma atan2_east (x : R) : (0 < x)%R -> Py.atan2 0 x = 0%R.
Proof.
  intros H. unfold Py.atan2. destruct (Rlt_dec 0 x); [| contradiction].
  unfold Rdiv. rewrite Rmult_0_l. apply atan_0.
Qed.

Lemma atan2_south (y : R) : (y < 0)%R -> Py.atan2 y 0 = (- (PI / 2))%R.
Proof.
  intros H. unfold Py.atan2.
  destruct (Rlt_dec 0 0); [lra |].
  destruct (Rlt_dec 0 y); [lra |].
  destruct (Rlt_dec y 0); [reflexivity | contradiction].
Qed.

Lemma degrees_0 : Py.degrees 0 = 0%R.
Proof. unfold Py.degrees. lra. Qed.

Lemma degrees_quarter_west : Py.degrees (- (PI / 2)) = (-90)%R.
Proof. unfold Py.degrees. pose proof PI_neq0. field. assumption. Qed.

Lemma norm3_x (a : R) : (0 <= a)%R -> norm3 a 0 0 = a.
Proof.
  intros H. unfold norm3.
  replace (a ^ 2 + 0 ^ 2 + 0 ^ 2)%R with (a ^ 2)%R by ring.
  apply sqrt_pow2. exact H.
Qed.

Lemma norm3_y (a : R) : (a <= 0)%R -> norm3 0 a 0 = (- a)%R.
Proof.
  intros H. unfold norm3.
  replace (0 ^ 2 + a ^ 2 + 0 ^ 2)%R with ((- a) ^ 2)%R by ring.
  apply sqrt_pow2. lra.
Qed.

(** A point of the equatorial plane off the axis has latitude 0. *)
Lemma latitude_equator (x y : R) :
  (0 < x ^ 2 + y ^ 2)%R -> latitude x y 0 = 0%R.
Proof.
  intros H. unfold latitude.
  rewrite atan2_east; [apply degrees_0 | apply sqrt_lt_R0; exact H].
Qed.

(** ** Numeric texts *)

Lemma float_of_dec (s : string) (m e : Z) :
  Py.float_dec s = Some (m, e) -> Py.float s = Some (IZR m * powerRZ 10 e)%R.
Proof. intros H. unfold Py.float. rewrite H. reflexivity. Qed.

Lemma float_of_int_literal (s : string) (m : Z) :
  Py.float_dec s = Some (m, 0) -> Py.float s = Some (IZR m).
Proof.
  intros H. rewrite (float_of_dec s m 0 H). f_equal. simpl. lra.
Qed.

Lemma float_text_int (q : Quantity) (m : Z) :
  Py.float_dec (text q) = Some (m, 0) -> float_text q = Py.Ok (IZR m).
Proof.
  intros H. unfold float_text. rewrite (float_of_int_literal _ m H). reflexivity.
Qed.

Lemma hours_of_int (epoch : string) (m : Z) :
  Py.float_dec (Py.substr (Some 9) (Some (-11)) epoch) = Some (m, 0) ->
  hours_of epoch = Py.Ok (IZR m).
Proof.
  intros H. unfold hours_of. rewrite (float_of_int_literal _ m H). reflexivity.
Qed.

Lemma minutes_of_int (epoch : string) (m : Z) :
  Py.float_dec (Py.substr (Some 12) (Some (-8)) epoch) = Some (m, 0) ->
  minutes_of epoch = Py.Ok (IZR m).
Proof.
  intros H. unfold minutes_of. rewrite (float_of_int_literal _ m H). reflexivity.
Qed.

(** ** The location of an epoch *)

(** [getLocation] at an epoch that is found and whose numbers parse. *)
Lemma getLocation_at (reverse : R -> R -> Z -> Py.result (option string))
    (d : Oem) (epoch : string) (i : StateVector) (x y z hrs mins : R) :
  first_with_epoch epoch (stateVector d) = Some i ->
  float_text (X i) = Py.Ok x ->
  float_text (Y i) = Py.Ok y ->
  float_text (Z_ i) = Py.Ok z ->
  hours_of epoch = Py.Ok hrs ->
  minutes_of epoch = Py.Ok mins ->
  getLocation reverse (Some d) epoch =
    (geoloc <- reverse (latitude x y z)
                 (wrap_longitude (raw_longitude x y hrs mins)) 1 ;;
     Py.Ok (LocationDict
              {| Latitude := latitude x y z;
                 Longitude := wrap_longitude (raw_longitude x y hrs mins);
                 altitude := altitude_km x y z;
                 geo := match geoloc with Some place => place | None => ocean end |})).
Proof.
  intros Hi Hx Hy Hz Hh Hm. unfold getLocation.
  rewrite Hi, Hx, Hy, Hz, Hh, Hm. unfold Py.bind.
  destruct (reverse _ _ _) as [[place |] | e]; reflexivity.
Qed.

(** [getLocation] at an epoch that is found but whose hour field is not
    a number. *)
Lemma getLocation_bad_hours (reverse : R -> R -> Z -> Py.result (option string))
    (d : Oem) (epoch : string) (i : StateVector) (x y z : R) (e : Py.exn) :
  first_with_epoch epoch (stateVector d) = Some i ->
  float_text (X i) = Py.Ok x ->
  float_text (Y i) = Py.Ok y ->
  float_text (Z_ i) = Py.Ok z ->
  hours_of epoch = Py.Raise e ->
  getLocation reverse (Some d) epoch = Py.Raise e.
Proof.
  intros Hi Hx Hy Hz Hh. unfold getLocation.
  rewrite Hi, Hx, Hy, Hz, Hh. reflexivity.
Qed.

(** [showSpeed] at an epoch that is found and whose numbers parse. *)
Lemma showSpeed_at (d : Oem) (epoch : string) (i : StateVector) (vx vy vz : R) :
  first_with_epoch epoch (stateVector d) = Some i ->
  float_text (X_DOT i) = Py.Ok vx ->
  float_text (Y_DOT i) = Py.Ok vy ->
  float_text (Z_DOT i) = Py.Ok vz ->
  showSpeed (Some d) epoch = Py.Ok (SpeedDict (norm3 vx vy vz)).
Proof.
  intros Hi Hx Hy Hz. unfold showSpeed.
  rewrite Hi, Hx, Hy, Hz. reflexivity.
Qed.

(** The projection of the noon sample. *)
Lemma noon_projection :
  latitude 7000 0 0 = 0%R /\
  raw_longitude 7000 0 12 0 = 24%R /\
  wrap_longitude (raw_longitude 7000 0 12 0) = 24%R /\
  altitude_km 7000 0 0 = 629%R.
Proof.
  assert (Hraw : raw_longitude 7000 0 12 0 = 24%R).
  { unfold raw_longitude. rewrite atan2_east by lra. rewrite degrees_0. lra. }
  repeat split.
  - apply latitude_equator. lra.
  - exact Hraw.
  - rewrite Hraw. apply wrap_longitude_inside. lra.
  - unfold altitude_km, MEAN_EARTH_RADIUS. rewrite norm3_x by lra. lra.
Qed.

(** What [getLocation] has done when it returns a location. *)
Lemma getLocation_inv (reverse : R -> R -> Z -> Py.result (option string))
    (d : Oem) (epoch : string) (loc : Location) :
  getLocation reverse (Some d) epoch = Py.Ok (LocationDict loc) ->
  exists i x y z hrs mins geoloc,
    first_with_epoch epoch (stateVector d) = Some i /\
    float_text (X i) = Py.Ok x /\
    float_text (Y i) = Py.Ok y /\
    float_text (Z_ i) = Py.Ok z /\
    hours_of epoch = Py.Ok hrs /\
    minutes_of epoch = Py.Ok mins /\
    reverse (latitude x y z) (wrap_longitude (raw_longitude x y hrs mins)) 1
      = Py.Ok geoloc /\
    loc = {| Latitude := latitude x y z;
             Longitude := wrap_longitude (raw_longitude x y hrs mins);
             altitude := altitude_km x y z;
             geo := match geoloc with Some place => place | None => ocean end |}.
Proof.
  unfold getLocation. intros H.
  destruct (first_with_epoch epoch (stateVector d)) as [i |] eqn:Hi;
    [| discriminate H].
  destruct (float_text (X i)) as [x | e] eqn:Hx; [| discriminate H].
  destruct (float_text (Y i)) as [y | e] eqn:Hy; [| discriminate H].
  destruct (float_text (Z_ i)) as [z | e] eqn:Hz; [| discriminate H].
  destruct (hours_of epoch) as [hrs | e] eqn:Hh; [| discriminate H].
  destruct (minutes_of epoch) as [mins | e] eqn:Hm; [| discriminate H].
  cbn [Py.bind] in H.
  destruct (reverse _ _ _) as [geoloc | e] eqn:Hr; [| discriminate H].
  cbn [Py.bind] in H.
  exists i, x, y, z, hrs, mins, geoloc.
  repeat (split; [first [assumption | reflexivity] |]).
  destruct geoloc; injection H as <-; reflexivity.
Qed.

(** Two runs of [getLocation] on the same data and epoch differ by the
    answer of the geocoder only: when one run returns a location, any
    other run asks its geocoder about the point of that location and
    returns the same numbers with what it is told. *)
Lemma getLocation_same_point
    (reverse0 reverse : R -> R -> Z -> Py.result (option string))
    (d : Oem) (epoch : string) (loc : Location) :
  getLocation reverse0 (Some d) epoch = Py.Ok (LocationDict loc) ->
  getLocation reverse (Some d) epoch =
    (geoloc <- reverse (Latitude loc) (Longitude loc) 1 ;;
     Py.Ok (LocationDict
              {| Latitude := Latitude loc;
                 Longitude := Longitude loc;
                 altitude := altitude loc;
                 geo := match geoloc with Some place => place | None => ocean end |})).
Proof.
  intros H. destruct (getLocation_inv reverse0 d epoch loc H)
    as (i & x & y & z & hrs & mins & geoloc0 & Hi & Hx & Hy & Hz & Hh & Hm & _ & ->).
  cbn [Latitude Longitude altitude].
  apply (getLocation_at reverse d epoch i x y z hrs mins Hi Hx Hy Hz Hh Hm).
Qed.

(** C9, as amended: whenever [getLocation] returns a location for an
    epoch, which it does with a geocoder that names a place, it does not
    fail with a geocoder that has no result for the point of that
    location: it returns the same latitude, longitude and altitude, with
    the text [Location may be over the ocean] in the place of the
    description. *)
Theorem getLocation_geocoder_none
    (reverse0 reverse : R -> R -> Z -> Py.result (option string))
    (d : Oem) (epoch : string) (loc : Location) :
  getLocation reverse0 (Some d) epoch = Py.Ok (LocationDict loc) ->
  reverse (Latitude loc) (Longitude loc) 1 = Py.Ok None ->
  getLocation reverse (Some d) epoch
    = Py.Ok (LocationDict
               {| Latitude := Latitude loc;
                  Longitude := Longitude loc;
                  altitude := altitude loc;
                  geo := "Location may be over the ocean" |}).
Proof.
  intros H Hrev.
  rewrite (getLocation_same_point reverse0 reverse d epoch loc H).
  rewrite Hrev. reflexivity.
Qed.

(** The location of the noon scenario when the geocoder names a place. *)
Lemma scenario_location_named (place : string) :
  getLocation (some_place place) (Some scenario) "2023-050T12:00:00.000Z"
  = Py.Ok (LocationDict
             {| Latitude := 0; Longitude := 24; altitude := 629; geo := place |}).
Proof.
  destruct noon_projection as (Hlat & _ & Hlon & Halt).
  rewrite (getLocation_at (some_place place) scenario _ sample_noon 7000 0 0 12 0);
    try reflexivity;
    first [ apply float_text_int; reflexivity
          | apply hours_of_int; reflexivity
          | apply minutes_of_int; reflexivity
          | idtac ].
  rewrite Hlat, Hlon, Halt. reflexivity.
Qed.

(** C9 at the noon scenario: a geocoder that names Gabon, and one that
    finds nothing. *)
Lemma getLocation_geocoder_none_witness :
  getLocation (some_place "Gabon") (Some scenario) "2023-050T12:00:00.000Z"
    = Py.Ok (LocationDict
               {| Latitude := 0; Longitude := 24; altitude := 629;
                  geo := "Gabon" |}) /\
  no_place 0%R 24%R 1 = Py.Ok None /\
  getLocation no_place (Some scenario) "2023-050T12:00:00.000Z"
    = Py.Ok (LocationDict
               {| Latitude := 0; Longitude := 24; altitude := 629;
                  geo := "Location may be over the ocean" |}).
Proof.
  assert (Hr : no_place 0%R 24%R 1 = Py.Ok None) by reflexivity.
  split; [exact (scenario_location_named "Gabon") |].
  split; [exact Hr |].
  exact (getLocation_geocoder_none (some_place "Gabon") no_place scenario _ _
           (scenario_location_named "Gabon") Hr).
Defined.

(** C9 as stated fails: at the noon scenario, with a geocoder that finds
    nothing, the text returned is not [location may be over open water]. *)
Lemma getLocation_placeholder_counterexample :
  exists loc,
    getLocation no_place (Some scenario) "2023-050T12:00:00.000Z"
      = Py.Ok (LocationDict loc) /\
    geo loc <> "location may be over open water".
Proof.
  eexists. split.
  - rewrite (getLocation_at no_place scenario _ sample_noon 7000 0 0 12 0);
      try reflexivity;
      first [ apply float_text_int; reflexivity
            | apply hours_of_int; reflexivity
            | apply minutes_of_int; reflexivity ].
  - simpl. discriminate.
Qed.

(** ** The scenario of a single state vector *)

(** C8, as amended: on the series of the single state vector at
    [2023-050T12:00:00.000Z] (the time stamp in the format of the feed)
    with velocity (1, 0, 0) and position (7000, 0, 0), [showSpeed] returns
    the speed 1, [showStateVectors] returns that state vector, and
    [getLocation] returns latitude 0, longitude 0 - 0 + 24 = 24 and
    altitude 7000 - 6371 = 629, with what the geocoder answers for that
    point.  The speed and the state vector are returned as well when the
    time stamp is cut after the seconds. *)
Theorem scenario_single_sample
    (reverse : R -> R -> Z -> Py.result (option string))
    (geoloc : option string) :
  reverse 0%R 24%R 1 = Py.Ok geoloc ->
  showSpeed (Some scenario) "2023-050T12:00:00.000Z" = Py.Ok (SpeedDict 1) /\
  showStateVectors (Some scenario) "2023-050T12:00:00.000Z"
    = Py.Ok (Json sample_noon) /\
  getLocation reverse (Some scenario) "2023-050T12:00:00.000Z"
    = Py.Ok (LocationDict
               {| Latitude := 0; Longitude := 24; altitude := 629;
                  geo := match geoloc with Some place => place | None => ocean end |}) /\
  showSpeed (Some scenario_short) "2023-050T12:00:00" = Py.Ok (SpeedDict 1) /\
  showStateVectors (Some scenario_short) "2023-050T12:00:00"
    = Py.Ok (Json sample_noon_short).
Proof.
  intros Hrev.
  destruct noon_projection as (Hlat & _ & Hlon & Halt).
  repeat split.
  - rewrite (showSpeed_at scenario _ sample_noon 1 0 0);
      try reflexivity; try (apply float_text_int; reflexivity).
    rewrite norm3_x by lra. reflexivity.
  - rewrite (getLocation_at reverse scenario _ sample_noon 7000 0 0 12 0);
      try reflexivity;
      first [ apply float_text_int; reflexivity
            | apply hours_of_int; reflexivity
            | apply minutes_of_int; reflexivity
            | idtac ].
    rewrite Hlat, Hlon, Halt, Hrev. reflexivity.
  - rewrite (showSpeed_at scenario_short _ sample_noon_short 1 0 0);
      try reflexivity; try (apply float_text_int; reflexivity).
    rewrite norm3_x by lra. reflexivity.
Qed.

(** C8 with a geocoder that finds nothing. *)
Lemma scenario_single_sample_witness :
  no_place 0%R 24%R 1 = Py.Ok None /\
  showSpeed (Some scenario) "2023-050T12:00:00.000Z" = Py.Ok (SpeedDict 1) /\
  showStateVectors (Some scenario) "2023-050T12:00:00.000Z"
    = Py.Ok (Json sample_noon) /\
  getLocation no_place (Some scenario) "2023-050T12:00:00.000Z"
    = Py.Ok (LocationDict
               {| Latitude := 0; Longitude := 24; altitude := 629; geo := ocean |}).
Proof.
  assert (Hrev : no_place 0%R 24%R 1 = Py.Ok None) by reflexivity.
  split; [exact Hrev |].
  destruct (scenario_single_sample no_place None Hrev) as (Hs & He & Hl & _).
  repeat split; assumption.
Defined.

(** C8 as stated fails: with the time stamp [2023-050T12:00:00] the slice
    [epoch[9:-11]] of [getLocation] is empty, [float] raises [ValueError]
    and no location is returned. *)
Lemma scenario_short_counterexample :
  Py.substr (Some 9) (Some (-11)) "2023-050T12:00:00" = "" /\
  getLocation no_place (Some scenario_short) "2023-050T12:00:00"
    = Py.Raise Py.ValueError /\
  ~ exists loc,
      getLocation no_place (Some scenario_short) "2023-050T12:00:00"
        = Py.Ok (LocationDict loc).
Proof.
  assert (H : getLocation no_place (Some scenario_short) "2023-050T12:00:00"
              = Py.Raise Py.ValueError).
  { apply (getLocation_bad_hours no_place scenario_short _ sample_noon_short 7000 0 0);
      try reflexivity; apply float_text_int; reflexivity. }
  split; [reflexivity |]. split; [exact H |].
  intros [loc Hloc]. rewrite H in Hloc. discriminate Hloc.
Qed.

(** ** The wrap of the longitude *)

Lemma late_projection :
  latitude 0 (-7000) 0 = 0%R /\
  raw_longitude 0 (-7000) 23 59 = (- 983 / 4)%R /\
  wrap_longitude (raw_longitude 0 (-7000) 23 59) = (- 2423 / 4)%R /\
  altitude_km 0 (-7000) 0 = 629%R.
Proof.
  assert (Hraw : raw_longitude 0 (-7000) 23 59 = (- 983 / 4)%R).
  { unfold raw_longitude. rewrite atan2_south by lra.
    rewrite degrees_quarter_west. lra. }
  repeat split.
  - apply latitude_equator. lra.
  - exact Hraw.
  - rewrite Hraw. rewrite wrap_longitude_outside by lra. lra.
  - unfold altitude_km, MEAN_EARTH_RADIUS. rewrite norm3_y by lra. lra.
Qed.

(** C1, at the failing input: for the state vector at 23:59 over the
    negative Y axis the longitude before the wrap is -245.75, which is
    within [-360, 360], and the longitude that [getLocation] returns is
    -605.75, which is not within [-180, 180]. *)
Theorem getLocation_west_overflow :
  (-360 <= raw_longitude 0 (-7000) 23 59 <= 360)%R /\
  getLocation no_place (Some late) "2023-050T23:59:00.000Z"
    = Py.Ok (LocationDict
               {| Latitude := 0; Longitude := - 2423 / 4; altitude := 629;
                  geo := ocean |}) /\
  ~ (-180 <= - 2423 / 4 <= 180)%R.
Proof.
  destruct late_projection as (Hlat & Hraw & Hlon & Halt).
  split; [rewrite Hraw; lra |]. split; [| lra].
  rewrite (getLocation_at no_place late _ sample_late 0 (-7000) 0 23 59);
    try reflexivity;
    first [ apply float_text_int; reflexivity
          | apply hours_of_int; reflexivity
          | apply minutes_of_int; reflexivity
          | idtac ].
  rewrite Hlat, Hlon, Halt. reflexivity.
Qed.

(** ** The cleared store *)

(** C6: after [deleteData] the store is empty, and [showEpochs],
    [showStateVectors], [showSpeed], [getLocation] and [getNowLoc] all
    return the text [Data has been cleared.], whatever their arguments
    and whatever the collaborators would answer. *)
Theorem cleared_after_deleteData
    (reverse : R -> R -> Z -> Py.result (option string))
    (mktime_strptime : string -> option R)
    (data : Data) (offset_arg limit_arg : option string) (epoch : string)
    (time_now : R) :
  let data' := fst (deleteData data) in
  nonempty data' = false /\
  showEpochs data' offset_arg limit_arg = Py.Ok (Text cleared) /\
  showStateVectors data' epoch = Py.Ok (Text cleared) /\
  showSpeed data' epoch = Py.Ok (Text cleared) /\
  getLocation reverse data' epoch = Py.Ok (Text cleared) /\
  getNowLoc reverse mktime_strptime data' time_now = Py.Ok (Text cleared) /\
  cleared = "Data has been cleared" ++ "." ++ nl.
Proof. repeat split. Qed.

(** ** The scan for the nearest epoch *)

Section Nearest.

Variable reverse : R -> R -> Z -> Py.result (option string).
Variable mktime_strptime : string -> option R.
Variable time_now : R.

(** The invariant of the loop: the kept entry [sv] is the first of the
    visited entries [l1 ++ sv :: l2] at the least distance. *)
Lemma scan_keeps_first_nearest (rest l1 l2 : list StateVector)
    (sv : StateVector) (t : R) (st : Scan) :
  seconds_of mktime_strptime (EPOCH sv) = Some t ->
  smallest_diff st = Some (Rabs (t - time_now)) ->
  now_epoch st = Some (EPOCH sv) ->
  Forall (farther (seconds_of mktime_strptime) time_now (Rabs (t - time_now))) l1 ->
  Forall (no_nearer (seconds_of mktime_strptime) time_now (Rabs (t - time_now))) l2 ->
  Forall (converts (seconds_of mktime_strptime)) rest ->
  exists l1' sv' l2' t' st',
    ((l1 ++ sv :: l2) ++ rest = l1' ++ sv' :: l2')%list /\
    seconds_of mktime_strptime (EPOCH sv') = Some t' /\
    Forall (farther (seconds_of mktime_strptime) time_now (Rabs (t' - time_now))) l1' /\
    Forall (no_nearer (seconds_of mktime_strptime) time_now (Rabs (t' - time_now))) l2' /\
    scan mktime_strptime time_now rest st = Py.Ok st' /\
    now_epoch st' = Some (EPOCH sv') /\
    smallest_diff st' = Some (Rabs (t' - time_now)).
Proof.
  revert l1 l2 sv t st.
  induction rest as [| x rest IH]; intros l1 l2 sv t st Ht Hsm Hne Hl1 Hl2 Hconv.
  - exists l1, sv, l2, t, st. rewrite app_nil_r. repeat split; assumption.
  - inversion Hconv as [| ? ? Hx Hrest]; subst.
    destruct (seconds_of mktime_strptime (EPOCH x)) as [tx |] eqn:Htx;
      [| exfalso; apply Hx; exact Htx].
    simpl. rewrite Htx. simpl. rewrite Hsm. simpl.
    destruct (Rlt_dec (Rabs (tx - time_now)) (Rabs (t - time_now))) as [Hlt | Hge].
    + rewrite (lt_true _ _ Hlt).
      destruct (IH (l1 ++ sv :: l2)%list [] x tx
                  {| smallest_diff := Some (Rabs (tx - time_now));
                     now_epoch := Some (EPOCH x);
                     epoch_ := Some (EPOCH x); epoch_time := Some tx |})
        as (l1' & sv' & l2' & t' & st' & Hdec & H); try assumption; try reflexivity.
      * apply Forall_app. split; [| constructor].
        -- eapply Forall_impl; [| exact Hl1]. intros a Ha u Hu.
           specialize (Ha u Hu). lra.
        -- intros u Hu. rewrite Ht in Hu. injection Hu as <-. exact Hlt.
        -- eapply Forall_impl; [| exact Hl2]. intros a Ha u Hu.
           specialize (Ha u Hu). lra.
      * constructor.
      * exists l1', sv', l2', t', st'. split; [| exact H].
        rewrite <- Hdec. rewrite <- !app_assoc. simpl.
        rewrite <- ?app_assoc. reflexivity.
    + rewrite lt_false by lra.
      destruct (IH l1 (l2 ++ [x])%list sv t
                  {| smallest_diff := Some (Rabs (t - time_now));
                     now_epoch := now_epoch st;
                     epoch_ := Some (EPOCH x); epoch_time := Some tx |})
        as (l1' & sv' & l2' & t' & st' & Hdec & H);
        [ exact Ht | reflexivity | exact Hne | exact Hl1 | | exact Hrest | ].
      * apply Forall_app. split; [exact Hl2 |]. constructor; [| constructor].
        intros u Hu. rewrite Htx in Hu. injection Hu as <-. lra.
      * exists l1', sv', l2', t', st'. split; [| exact H].
        rewrite <- Hdec. rewrite <- !app_assoc. simpl.
        rewrite <- ?app_assoc. reflexivity.
Qed.

(** The scan of a whole series whose epochs convert. *)
Lemma scan_first_nearest (svs : list StateVector) :
  svs <> [] -> Forall (converts (seconds_of mktime_strptime)) svs ->
  exists l1 sv l2 t st,
    svs = (l1 ++ sv :: l2)%list /\
    seconds_of mktime_strptime (EPOCH sv) = Some t /\
    Forall (farther (seconds_of mktime_strptime) time_now (Rabs (t - time_now))) l1 /\
    Forall (no_nearer (seconds_of mktime_strptime) time_now (Rabs (t - time_now))) l2 /\
    scan mktime_strptime time_now svs scan_start = Py.Ok st /\
    now_epoch st = Some (EPOCH sv) /\
    smallest_diff st = Some (Rabs (t - time_now)).
Proof.
  intros Hne Hconv. destruct svs as [| x rest]; [contradiction |].
  inversion Hconv as [| ? ? Hx Hrest]; subst.
  destruct (seconds_of mktime_strptime (EPOCH x)) as [tx |] eqn:Htx;
    [| exfalso; apply Hx; exact Htx].
  simpl. rewrite Htx. simpl.
  apply (scan_keeps_first_nearest rest [] [] x tx); try assumption;
    try reflexivity; constructor.
Qed.

(** The second loop stops at the entry that the first loop has kept. *)
Lemma first_with_epoch_nearest (l1 l2 : list StateVector) (sv : StateVector) (t : R) :
  seconds_of mktime_strptime (EPOCH sv) = Some t ->
  Forall (farther (seconds_of mktime_strptime) time_now (Rabs (t - time_now))) l1 ->
  first_with_epoch (EPOCH sv) (l1 ++ sv :: l2)%list = Some sv.
Proof.
  intros Ht Hl1. unfold first_with_epoch.
  induction l1 as [| a l1 IH]; simpl.
  - rewrite String.eqb_refl. reflexivity.
  - inversion Hl1 as [| ? ? Ha Hl1']; subst.
    destruct (String.eqb_spec (EPOCH a) (EPOCH sv)) as [Heq | _].
    + exfalso. rewrite <- Heq in Ht. specialize (Ha t Ht). lra.
    + apply IH. exact Hl1'.
Qed.

(** [getNowLoc] on a series that is not empty, from what the first loop
    leaves and the entry at which the second loop stops. *)
Lemma getNowLoc_at (d : Oem) (st : Scan) (epoch : string) (i : StateVector) :
  stateVector d <> [] ->
  scan mktime_strptime time_now (stateVector d) scan_start = Py.Ok st ->
  now_epoch st = Some epoch ->
  first_with_epoch epoch (stateVector d) = Some i ->
  getNowLoc reverse mktime_strptime (Some d) time_now = now_body reverse st i.
Proof.
  intros Hne Hscan Hnow Hfind. unfold getNowLoc.
  cbv zeta. rewrite Hscan. cbn [Py.bind].
  destruct (stateVector d) as [| x rest]; [contradiction |].
  rewrite Hnow. unfold local, Py.orRaise. cbn [Py.bind].
  rewrite Hfind. reflexivity.
Qed.

(** C5: on a series that is not empty and whose epochs all convert to a
    time, the first loop of [getNowLoc] ends, and it keeps the epoch of an
    entry [sv] of the series such that every entry before [sv] is
    strictly farther from [time_now] than [sv] and no entry after [sv] is
    nearer: [sv] is at the least distance, and among the entries at the
    least distance it is the first.  The loop keeps that least distance,
    and the second loop runs its body at [sv]. *)
Theorem getNowLoc_first_nearest (d : Oem) :
  stateVector d <> [] ->
  Forall (converts (seconds_of mktime_strptime)) (stateVector d) ->
  exists l1 sv l2 t st,
    stateVector d = (l1 ++ sv :: l2)%list /\
    seconds_of mktime_strptime (EPOCH sv) = Some t /\
    Forall (farther (seconds_of mktime_strptime) time_now (Rabs (t - time_now))) l1 /\
    Forall (no_nearer (seconds_of mktime_strptime) time_now (Rabs (t - time_now))) l2 /\
    scan mktime_strptime time_now (stateVector d) scan_start = Py.Ok st /\
    now_epoch st = Some (EPOCH sv) /\
    smallest_diff st = Some (Rabs (t - time_now)) /\
    first_with_epoch (EPOCH sv) (stateVector d) = Some sv /\
    getNowLoc reverse mktime_strptime (Some d) time_now = now_body reverse st sv.
Proof.
  intros Hne Hconv.
  destruct (scan_first_nearest (stateVector d) Hne Hconv)
    as (l1 & sv & l2 & t & st & Hdec & Ht & Hl1 & Hl2 & Hscan & Hnow & Hsm).
  assert (Hfind : first_with_epoch (EPOCH sv) (stateVector d) = Some sv).
  { rewrite Hdec. apply (first_with_epoch_nearest l1 l2 sv t Ht Hl1). }
  exists l1, sv, l2, t, st.
  repeat (split; [assumption |]).
  apply (getNowLoc_at d st (EPOCH sv) sv Hne Hscan Hnow Hfind).
Qed.

End Nearest.

(** ** One round of the scan *)

Lemma scan_closer (mktime_strptime : string -> option R) (time_now : R)
    (sv : StateVector) (rest : list StateVector) (st : Scan) (t : R) :
  seconds_of mktime_strptime (EPOCH sv) = Some t ->
  below (Rabs (t - time_now)) (smallest_diff st) = true ->
  scan mktime_strptime time_now (sv :: rest) st
  = scan mktime_strptime time_now rest
      {| smallest_diff := Some (Rabs (t - time_now));
         now_epoch := Some (EPOCH sv);
         epoch_ := Some (EPOCH sv); epoch_time := Some t |}.
Proof.
  intros Ht Hb. cbn [scan]. rewrite Ht. cbn [Py.orRaise Py.bind].
  rewrite Hb. reflexivity.
Qed.

Lemma scan_not_closer (mktime_strptime : string -> option R) (time_now : R)
    (sv : StateVector) (rest : list StateVector) (st : Scan) (t : R) :
  seconds_of mktime_strptime (EPOCH sv) = Some t ->
  below (Rabs (t - time_now)) (smallest_diff st) = false ->
  scan mktime_strptime time_now (sv :: rest) st
  = scan mktime_strptime time_now rest
      {| smallest_diff := smallest_diff st;
         now_epoch := now_epoch st;
         epoch_ := Some (EPOCH sv); epoch_time := Some t |}.
Proof.
  intros Ht Hb. cbn [scan]. rewrite Ht. cbn [Py.orRaise Py.bind].
  rewrite Hb. reflexivity.
Qed.

(** Whatever entry is the nearest, the variables [epoch] and
    [epoch_time] are left at the last entry of the series. *)
Lemma scan_leaves_last (mktime_strptime : string -> option R) (time_now : R)
    (svs : list StateVector) (sv : StateVector) (st st' : Scan) :
  scan mktime_strptime time_now (svs ++ [sv])%list st = Py.Ok st' ->
  epoch_ st' = Some (EPOCH sv) /\
  epoch_time st' = seconds_of mktime_strptime (EPOCH sv).
Proof.
  revert st. induction svs as [| x svs IH]; intros st H.
  - cbn [app scan] in H.
    destruct (seconds_of mktime_strptime (EPOCH sv)) as [t |];
      cbn [Py.orRaise Py.bind] in H; [| discriminate H].
    destruct (below _ _); injection H as <-; split; reflexivity.
  - cbn [app scan] in H.
    destruct (seconds_of mktime_strptime (EPOCH x)) as [t |];
      cbn [Py.orRaise Py.bind] in H; [| discriminate H].
    destruct (below _ _); apply IH in H; exact H.
Qed.

(** The body of the second loop when every number parses. *)
Lemma now_body_at (reverse : R -> R -> Z -> Py.result (option string))
    (st : Scan) (i : StateVector) (x y z hrs mins vx vy vz et : R)
    (last_epoch nearest_epoch : string) (geoloc : option string) :
  float_text (X i) = Py.Ok x ->
  float_text (Y i) = Py.Ok y ->
  float_text (Z_ i) = Py.Ok z ->
  epoch_ st = Some last_epoch ->
  hours_of last_epoch = Py.Ok hrs ->
  minutes_of last_epoch = Py.Ok mins ->
  reverse (latitude x y z) (wrap_longitude (raw_longitude x y hrs mins)) 10
    = Py.Ok geoloc ->
  float_text (X_DOT i) = Py.Ok vx ->
  float_text (Y_DOT i) = Py.Ok vy ->
  float_text (Z_DOT i) = Py.Ok vz ->
  now_epoch st = Some nearest_epoch ->
  epoch_time st = Some et ->
  now_body reverse st i
  = Py.Ok (NowDict
             {| Closest_epoch := nearest_epoch;
                epochTime := et;
                Seconds_from_now := smallest_diff st;
                Location_ :=
                  {| Latitude := latitude x y z;
                     Longitude := wrap_longitude (raw_longitude x y hrs mins);
                     altitude := altitude_km x y z;
                     geo := match geoloc with Some place => place | None => ocean end |};
                Speed := norm3 vx vy vz |}).
Proof.
  intros Hx Hy Hz He Hh Hm Hrev Hvx Hvy Hvz Hne Het. unfold now_body.
  rewrite Hx, Hy, Hz, He. unfold local. cbn [Py.orRaise Py.bind].
  rewrite Hh, Hm. cbn [Py.bind]. rewrite Hrev. cbn [Py.bind].
  rewrite Hvx, Hvy, Hvz, Hne, Het. cbn [Py.orRaise Py.bind].
  destruct geoloc; reflexivity.
Qed.

(** ** Worked examples of the nearest epoch *)

Lemma utc_seconds_of (epoch : string) (z : Z) :
  utc_seconds (Py.substr None (Some (-5)) epoch) = Some z ->
  seconds_of utc_mktime epoch = Some (IZR z).
Proof. intros H. unfold seconds_of, utc_mktime. rewrite H. reflexivity. Qed.

Ltac abs_lra :=
  unfold Rabs;
  repeat match goal with
         | |- context [Rcase_abs ?x] => destruct (Rcase_abs x)
         end;
  lra.

Lemma seconds_1200 :
  seconds_of utc_mktime "2023-050T12:00:00.000Z" = Some 1676808000%R.
Proof. apply utc_seconds_of. reflexivity. Qed.

Lemma seconds_1204 :
  seconds_of utc_mktime "2023-050T12:04:00.000Z" = Some 1676808240%R.
Proof. apply utc_seconds_of. reflexivity. Qed.

Lemma seconds_1208 :
  seconds_of utc_mktime "2023-050T12:08:00.000Z" = Some 1676808480%R.
Proof. apply utc_seconds_of. reflexivity. Qed.

Lemma series3_converts :
  Forall (converts (seconds_of utc_mktime)) (stateVector series3).
Proof.
  repeat constructor; unfold converts; cbn [EPOCH vector].
  - rewrite seconds_1200. discriminate.
  - rewrite seconds_1204. discriminate.
  - rewrite seconds_1208. discriminate.
Qed.

(** C5 at the series of three, with the clock half way between its first
    two epochs. *)
Lemma getNowLoc_first_nearest_witness :
  stateVector series3 <> [] /\
  Forall (converts (seconds_of utc_mktime)) (stateVector series3) /\
  exists l1 sv l2 t st,
    stateVector series3 = (l1 ++ sv :: l2)%list /\
    seconds_of utc_mktime (EPOCH sv) = Some t /\
    Forall (farther (seconds_of utc_mktime) 1676808120 (Rabs (t - 1676808120))) l1 /\
    Forall (no_nearer (seconds_of utc_mktime) 1676808120 (Rabs (t - 1676808120))) l2 /\
    scan utc_mktime 1676808120 (stateVector series3) scan_start = Py.Ok st /\
    now_epoch st = Some (EPOCH sv) /\
    smallest_diff st = Some (Rabs (t - 1676808120)) /\
    first_with_epoch (EPOCH sv) (stateVector series3) = Some sv /\
    getNowLoc no_place utc_mktime (Some series3) 1676808120 = now_body no_place st sv.
Proof.
  assert (Hne : stateVector series3 <> []) by discriminate.
  split; [exact Hne |]. split; [exact series3_converts |].
  exact (getNowLoc_first_nearest no_place utc_mktime 1676808120 series3
           Hne series3_converts).
Defined.

(** With the clock exactly half way between the first two epochs, the
    earlier one is kept. *)
Example scan_tie_keeps_earlier :
  scan utc_mktime 1676808120 (stateVector series3) scan_start
  = Py.Ok {| smallest_diff := Some 120%R;
             now_epoch := Some "2023-050T12:00:00.000Z";
             epoch_ := Some "2023-050T12:08:00.000Z";
             epoch_time := Some 1676808480%R |}.
Proof.
  cbn [stateVector series3].
  rewrite (scan_closer _ _ _ _ _ 1676808000);
    [| exact seconds_1200 | reflexivity ].
  rewrite (scan_not_closer _ _ _ _ _ 1676808240);
    [| exact seconds_1204
     | cbn [below smallest_diff]; apply lt_false; abs_lra ].
  rewrite (scan_not_closer _ _ _ _ _ 1676808480);
    [| exact seconds_1208
     | cbn [below smallest_diff]; apply lt_false; abs_lra ].
  cbn [scan smallest_diff now_epoch EPOCH vector].
  do 2 f_equal. f_equal. abs_lra.
Qed.

(** The first loop on the series of two, with the clock at its first
    epoch. *)
Lemma pair_scan :
  scan utc_mktime 1676808000 (stateVector pair) scan_start
  = Py.Ok {| smallest_diff := Some 0%R;
             now_epoch := Some "2023-050T12:00:00.000Z";
             epoch_ := Some "2023-050T12:04:00.000Z";
             epoch_time := Some 1676808240%R |}.
Proof.
  cbn [stateVector pair].
  rewrite (scan_closer _ _ _ _ _ 1676808000);
    [| exact seconds_1200 | reflexivity ].
  rewrite (scan_not_closer _ _ _ _ _ 1676808240);
    [| exact seconds_1204
     | cbn [below smallest_diff]; apply lt_false; abs_lra ].
  cbn [scan smallest_diff now_epoch EPOCH sample_noon sample_next vector].
  do 2 f_equal. f_equal. abs_lra.
Qed.

(** The projection of the position of the noon sample with the hour and
    minute of 12:04. *)
Lemma next_projection :
  wrap_longitude (raw_longitude 7000 0 12 4) = 23%R.
Proof.
  assert (Hraw : raw_longitude 7000 0 12 4 = 23%R).
  { unfold raw_longitude. rewrite atan2_east by lra. rewrite degrees_0. lra. }
  rewrite Hraw. apply wrap_longitude_inside. lra.
Qed.

(** C2, at the failing input: on the series of the state vectors of 12:00
    and 12:04, both at position (7000, 0, 0), with the clock at 12:00
    exactly, [getNowLoc] returns the epoch of 12:00 as the closest and the
    distance 0, but the time value of the epoch of 12:04, which is not
    that of the closest epoch, and the longitude 23 computed with the hour
    and minute of 12:04, where those of the closest epoch give 24. *)
Theorem getNowLoc_stale_epoch :
  getNowLoc no_place utc_mktime (Some pair) 1676808000
  = Py.Ok (NowDict
             {| Closest_epoch := "2023-050T12:00:00.000Z";
                epochTime := 1676808240;
                Seconds_from_now := Some 0%R;
                Location_ := {| Latitude := 0; Longitude := 23;
                                altitude := 629; geo := ocean |};
                Speed := 1 |}) /\
  seconds_of utc_mktime "2023-050T12:00:00.000Z" = Some 1676808000%R /\
  1676808240%R <> 1676808000%R /\
  hours_of "2023-050T12:00:00.000Z" = Py.Ok 12%R /\
  minutes_of "2023-050T12:00:00.000Z" = Py.Ok 0%R /\
  wrap_longitude (raw_longitude 7000 0 12 0) = 24%R.
Proof.
  destruct noon_projection as (Hlat & _ & Hlon & Halt).
  split; [| split; [| split; [| split; [| split]]]].
  - rewrite (getNowLoc_at no_place utc_mktime 1676808000 pair _
               "2023-050T12:00:00.000Z" sample_noon
               ltac:(discriminate) pair_scan eq_refl eq_refl).
    rewrite (now_body_at no_place _ sample_noon 7000 0 0 12 4 1 0 0 1676808240
               "2023-050T12:04:00.000Z" "2023-050T12:00:00.000Z" None);
      try reflexivity;
      first [ apply float_text_int; reflexivity
            | apply hours_of_int; reflexivity
            | apply minutes_of_int; reflexivity
            | idtac ].
    cbn [smallest_diff].
    rewrite Hlat, next_projection, Halt, (norm3_x 1) by lra. reflexivity.
  - exact seconds_1200.
  - lra.
  - apply hours_of_int. reflexivity.
  - apply minutes_of_int. reflexivity.
  - exact Hlon.
Qed.

(** * Further properties *)

(** ** Slices with bounds that are not negative *)

Lemma slice_from {A : Type} (a : Z) (l : list A) :
  0 <= a -> Py.slice (Some a) None l = skipn (Z.to_nat a) l.
Proof.
  intros Ha. unfold Py.slice, Py.slice_index.
  destruct (Z.ltb_spec a 0) as [Hneg | _]; [lia |].
  destruct (Z.le_gt_cases a (Z.of_nat (List.length l))) as [Hle | Hgt].
  - rewrite Z.min_l by exact Hle.
    apply firstn_all2. rewrite length_skipn. lia.
  - rewrite Z.min_r by lia. rewrite Z.sub_diag, Nat2Z.id, skipn_all. simpl.
    symmetry. apply skipn_all2. lia.
Qed.

Lemma slice_between {A : Type} (a b : Z) (l : list A) :
  0 <= a -> a <= b ->
  Py.slice (Some a) (Some b) l
  = firstn (Z.to_nat (b - a)) (skipn (Z.to_nat a) l).
Proof.
  intros Ha Hab. unfold Py.slice, Py.slice_index.
  destruct (Z.ltb_spec a 0) as [Hneg | _]; [lia |].
  destruct (Z.ltb_spec b 0) as [Hneg | _]; [lia |].
  set (n := Z.of_nat (List.length l)).
  destruct (Z.le_gt_cases a n) as [Hle | Hgt].
  - rewrite (Z.min_l a n) by exact Hle.
    destruct (Z.le_gt_cases b n) as [Hbn | Hbn].
    + rewrite Z.min_l by exact Hbn. reflexivity.
    + rewrite Z.min_r by lia.
      rewrite !firstn_all2; [reflexivity | |]; rewrite length_skipn; unfold n in *; lia.
  - rewrite (Z.min_r a n) by lia.
    replace (skipn (Z.to_nat n) l) with (@nil A)
      by (symmetry; apply skipn_all2; unfold n; lia).
    replace (skipn (Z.to_nat a) l) with (@nil A)
      by (symmetry; apply skipn_all2; unfold n in *; lia).
    rewrite !firstn_nil. reflexivity.
Qed.

Lemma slice_upto {A : Type} (b : Z) (l : list A) :
  0 <= b -> Py.slice None (Some b) l = firstn (Z.to_nat b) l.
Proof.
  intros Hb. unfold Py.slice, Py.slice_index.
  destruct (Z.ltb_spec b 0) as [Hneg | _]; [lia |].
  simpl skipn. rewrite Z.sub_0_r.
  destruct (Z.le_gt_cases b (Z.of_nat (List.length l))) as [Hle | Hgt].
  - rewrite Z.min_l by exact Hle. reflexivity.
  - rewrite Z.min_r by lia. rewrite !firstn_all2; [reflexivity | lia | lia].
Qed.

(** A slice is a run of consecutive elements of the list. *)
Lemma slice_infix {A : Type} (lo hi : option Z) (l : list A) :
  exists before after, l = (before ++ Py.slice lo hi l ++ after)%list.
Proof.
  unfold Py.slice.
  set (j := Z.to_nat _). set (k := Z.to_nat _).
  exists (firstn k l), (skipn j (skipn k l)).
  rewrite (firstn_skipn j (skipn k l)). symmetry. apply firstn_skipn.
Qed.

Lemma firstn_add {A : Type} (a b : nat) (l : list A) :
  firstn (a + b) l = (firstn a l ++ firstn b (skipn a l))%list.
Proof.
  revert l. induction a as [| a IH]; intros l; [reflexivity |].
  destruct l as [| x l]; simpl.
  - rewrite firstn_nil. reflexivity.
  - rewrite IH. reflexivity.
Qed.

(** ** The page that [showEpochs] returns *)

(** The epochs from index [offset] on, at most [limit] of them when
    [limit] is not zero. *)
Lemma showEpochs_page (d : Oem) (offset_arg limit_arg : option string)
    (offset limit : Z) :
  int_arg offset_arg offset -> int_arg limit_arg limit ->
  0 <= offset -> 0 <= limit ->
  showEpochs (Some d) offset_arg limit_arg
  = Py.Ok (EpochList
             (if limit =? 0
              then skipn (Z.to_nat offset) (map EPOCH (stateVector d))
              else firstn (Z.to_nat limit)
                     (skipn (Z.to_nat offset) (map EPOCH (stateVector d))))).
Proof.
  intros Ho Hl Hop Hlp. unfold showEpochs.
  rewrite (parse_int_arg _ _ Ho). simpl.
  rewrite (parse_int_arg _ _ Hl). simpl.
  unfold Py.ne0. simpl.
  destruct (Z.eqb_spec offset 0) as [-> | Hoz];
    destruct (Z.eqb_spec limit 0) as [-> | Hlz]; simpl.
  - reflexivity.
  - rewrite slice_upto by lia. reflexivity.
  - rewrite slice_from by lia. reflexivity.
  - rewrite slice_between by lia.
    replace (offset + limit - offset) with limit by lia. reflexivity.
Qed.

(** X1: for integer parameters that are not negative, the [k]-th epoch
    that [showEpochs] returns is the epoch at index [offset + k] of the
    series, and a [limit] that is not zero bounds their number. *)
Theorem showEpochs_kth (d : Oem) (offset_arg limit_arg : option string)
    (offset limit : Z) :
  int_arg offset_arg offset -> int_arg limit_arg limit ->
  0 <= offset -> 0 <= limit ->
  exists epochs,
    showEpochs (Some d) offset_arg limit_arg = Py.Ok (EpochList epochs) /\
    (forall k, (k < List.length epochs)%nat ->
       nth_error epochs k
       = option_map EPOCH (nth_error (stateVector d) (Z.to_nat offset + k))) /\
    (limit <> 0 -> Z.of_nat (List.length epochs) <= limit).
Proof.
  intros Ho Hl Hop Hlp.
  rewrite (showEpochs_page d _ _ offset limit Ho Hl Hop Hlp).
  eexists. split; [reflexivity |].
  destruct (Z.eqb_spec limit 0) as [-> | Hlz].
  - split; [| intros H; contradiction].
    intros k _. rewrite nth_error_skipn. apply nth_error_map.
  - split.
    + intros k Hk. rewrite nth_error_firstn.
      pose proof (firstn_le_length (Z.to_nat limit)
                    (skipn (Z.to_nat offset) (map EPOCH (stateVector d)))) as Hle.
      destruct (Nat.ltb_spec k (Z.to_nat limit)) as [_ | Hge]; [| lia].
      rewrite nth_error_skipn. apply nth_error_map.
    + intros _.
      pose proof (firstn_le_length (Z.to_nat limit)
                    (skipn (Z.to_nat offset) (map EPOCH (stateVector d)))) as Hle.
      lia.
Qed.

(** X1 at the series of three with [offset=1] and [limit=5]. *)
Lemma showEpochs_kth_witness :
  int_arg (Some "1") 1 /\ int_arg (Some "5") 5 /\ 0 <= 1 /\ 0 <= 5 /\
  exists epochs,
    showEpochs (Some series3) (Some "1") (Some "5") = Py.Ok (EpochList epochs) /\
    (forall k, (k < List.length epochs)%nat ->
       nth_error epochs k
       = option_map EPOCH (nth_error (stateVector series3) (Z.to_nat 1 + k))) /\
    (5 <> 0 -> Z.of_nat (List.length epochs) <= 5).
Proof.
  assert (H1 : int_arg (Some "1") 1) by (right; exists "1"; split; reflexivity).
  assert (H5 : int_arg (Some "5") 5) by (right; exists "5"; split; reflexivity).
  assert (P1 : 0 <= 1) by lia.
  assert (P5 : 0 <= 5) by lia.
  repeat (split; [assumption |]).
  exact (showEpochs_kth series3 (Some "1") (Some "5") 1 5 H1 H5 P1 P5).
Defined.

(** X2: pages join.  With [offset >= 0] and two limits that are not zero,
    the page of [limit] epochs from [offset] followed by the page of
    [limit'] epochs from [offset + limit] is the page of [limit + limit']
    epochs from [offset]: nothing is skipped and nothing is listed twice. *)
Theorem showEpochs_pages_join (d : Oem)
    (offset_arg limit_arg next_arg limit'_arg both_arg : option string)
    (offset limit limit' : Z) :
  int_arg offset_arg offset -> int_arg limit_arg limit ->
  int_arg next_arg (offset + limit) -> int_arg limit'_arg limit' ->
  int_arg both_arg (limit + limit') ->
  0 <= offset -> 0 < limit -> 0 < limit' ->
  exists page page' pages,
    showEpochs (Some d) offset_arg limit_arg = Py.Ok (EpochList page) /\
    showEpochs (Some d) next_arg limit'_arg = Py.Ok (EpochList page') /\
    showEpochs (Some d) offset_arg both_arg = Py.Ok (EpochList pages) /\
    pages = (page ++ page')%list.
Proof.
  intros Ho Hl Hn Hl' Hb Hop Hlp Hlp'.
  rewrite (showEpochs_page d _ _ offset limit Ho Hl) by lia.
  rewrite (showEpochs_page d _ _ (offset + limit) limit' Hn Hl') by lia.
  rewrite (showEpochs_page d _ _ offset (limit + limit') Ho Hb) by lia.
  destruct (Z.eqb_spec limit 0) as [? | _]; [lia |].
  destruct (Z.eqb_spec limit' 0) as [? | _]; [lia |].
  destruct (Z.eqb_spec (limit + limit') 0) as [? | _]; [lia |].
  do 3 eexists. repeat (split; [reflexivity |]).
  rewrite !Z2Nat.inj_add by lia.
  rewrite firstn_add, skipn_skipn.
  rewrite (Nat.add_comm (Z.to_nat limit) (Z.to_nat offset)). reflexivity.
Qed.

(** X2 at the series of three: the pages [1, 2) and [2, 3) make [1, 3). *)
Lemma showEpochs_pages_join_witness :
  int_arg (Some "1") 1 /\ int_arg (Some "1") 1 /\ int_arg (Some "2") (1 + 1) /\
  int_arg (Some "1") 1 /\ int_arg (Some "2") (1 + 1) /\
  0 <= 1 /\ 0 < 1 /\ 0 < 1 /\
  exists page page' pages,
    showEpochs (Some series3) (Some "1") (Some "1") = Py.Ok (EpochList page) /\
    showEpochs (Some series3) (Some "2") (Some "1") = Py.Ok (EpochList page') /\
    showEpochs (Some series3) (Some "1") (Some "2") = Py.Ok (EpochList pages) /\
    pages = (page ++ page')%list.
Proof.
  assert (H1 : int_arg (Some "1") 1) by (right; exists "1"; split; reflexivity).
  assert (H2 : int_arg (Some "2") (1 + 1)) by (right; exists "2"; split; reflexivity).
  assert (P0 : 0 <= 1) by lia.
  assert (P1 : 0 < 1) by lia.
  repeat (split; [assumption |]).
  exact (showEpochs_pages_join series3 (Some "1") (Some "1") (Some "2") (Some "1")
           (Some "2") 1 1 1 H1 H1 H2 H1 H2 P0 P1 P1).
Defined.

(** X3: whatever integers the parameters are, negative ones too,
    [showEpochs] returns a run of consecutive epochs of the series: it
    never reorders, repeats or invents an epoch. *)
Theorem showEpochs_consecutive (d : Oem) (offset_arg limit_arg : option string)
    (offset limit : Z) :
  int_arg offset_arg offset -> int_arg limit_arg limit ->
  exists epochs before after,
    showEpochs (Some d) offset_arg limit_arg = Py.Ok (EpochList epochs) /\
    map EPOCH (stateVector d) = (before ++ epochs ++ after)%list.
Proof.
  intros Ho Hl. unfold showEpochs.
  rewrite (parse_int_arg _ _ Ho). simpl.
  rewrite (parse_int_arg _ _ Hl). simpl.
  unfold Py.ne0. simpl.
  destruct (Z.eqb_spec offset 0) as [-> | Hoz];
    destruct (Z.eqb_spec limit 0) as [-> | Hlz]; simpl.
  - exists (map EPOCH (stateVector d)), [], [].
    split; [reflexivity |]. rewrite app_nil_r. reflexivity.
  - destruct (slice_infix None (Some limit) (map EPOCH (stateVector d)))
      as (before & after & H).
    eexists. exists before, after. split; [reflexivity | exact H].
  - destruct (slice_infix (Some offset) None (map EPOCH (stateVector d)))
      as (before & after & H).
    eexists. exists before, after. split; [reflexivity | exact H].
  - destruct (slice_infix (Some offset) (Some (offset + limit))
                (map EPOCH (stateVector d))) as (before & after & H).
    eexists. exists before, after. split; [reflexivity | exact H].
Qed.

(** X3 at the series of three with [offset=-2] and [limit=-1]. *)
Lemma showEpochs_consecutive_witness :
  int_arg (Some "-2") (-2) /\ int_arg (Some "-1") (-1) /\
  exists epochs before after,
    showEpochs (Some series3) (Some "-2") (Some "-1") = Py.Ok (EpochList epochs) /\
    map EPOCH (stateVector series3) = (before ++ epochs ++ after)%list.
Proof.
  assert (H2 : int_arg (Some "-2") (-2)) by (right; exists "-2"; split; reflexivity).
  assert (H1 : int_arg (Some "-1") (-1)) by (right; exists "-1"; split; reflexivity).
  repeat (split; [assumption |]).
  exact (showEpochs_consecutive series3 (Some "-2") (Some "-1") (-2) (-1) H2 H1).
Defined.

(** X4: the parameters are validated in the order [offset], [limit].  A
    text for [offset] that is not empty and is not an integer literal is
    answered with the 400 reply that names [offset] whatever [limit] is,
    even when [limit] is as bad; such a text for [limit] is answered with
    the 400 reply that names [limit] when [offset] is absent or an
    integer literal.  The text is taken in ASCII, where [Py.int] is the
    [int] of Python. *)
Theorem showEpochs_validation_order (d : Oem) (bad : string) :
  bad <> "" -> isascii bad = true -> Py.int bad = None ->
  (forall limit_arg,
     showEpochs (Some d) (Some bad) limit_arg
     = Py.Ok (TextStatus
                "Bad input; please specify a positive integer for offset." 400)) /\
  (forall offset_arg offset,
     int_arg offset_arg offset ->
     showEpochs (Some d) offset_arg (Some bad)
     = Py.Ok (TextStatus
                "Bad input; please specify a positive integer for limit." 400)).
Proof.
  intros Hne _ Hbad. split.
  - intros limit_arg. apply showEpochs_bad_offset; assumption.
  - intros offset_arg offset Ho.
    apply (showEpochs_bad_limit d offset_arg offset bad Ho Hne Hbad).
Qed.

(** X4 with the text [abc]. *)
Lemma showEpochs_validation_order_witness :
  "abc" <> "" /\ isascii "abc" = true /\ Py.int "abc" = None /\
  showEpochs (Some series3) (Some "abc") (Some "abc")
  = Py.Ok (TextStatus
             "Bad input; please specify a positive integer for offset." 400) /\
  showEpochs (Some series3) (Some "1") (Some "abc")
  = Py.Ok (TextStatus
             "Bad input; please specify a positive integer for limit." 400).
Proof.
  assert (Hne : "abc" <> "") by discriminate.
  assert (Hasc : isascii "abc" = true) by reflexivity.
  assert (Hbad : Py.int "abc" = None) by reflexivity.
  repeat (split; [assumption |]).
  destruct (showEpochs_validation_order series3 "abc" Hne Hasc Hbad) as [Ho Hl].
  split.
  - apply Ho.
  - apply (Hl (Some "1") 1). right. exists "1". split; reflexivity.
Defined.

(** ** Lookup by epoch *)

Lemma first_with_epoch_first (l1 l2 : list StateVector) (sv : StateVector) :
  Forall (fun x => EPOCH x <> EPOCH sv) l1 ->
  first_with_epoch (EPOCH sv) (l1 ++ sv :: l2)%list = Some sv.
Proof.
  intros Hl1. unfold first_with_epoch.
  induction l1 as [| a l1 IH]; simpl.
  - rewrite String.eqb_refl. reflexivity.
  - inversion Hl1 as [| ? ? Ha Hl1']; subst.
    destruct (String.eqb_spec (EPOCH a) (EPOCH sv)) as [Heq | _];
      [contradiction | apply IH; exact Hl1'].
Qed.

(** What [showSpeed] has done when it returns a speed. *)
Lemma showSpeed_inv (d : Oem) (epoch : string) (s : R) :
  showSpeed (Some d) epoch = Py.Ok (SpeedDict s) ->
  exists i vx vy vz,
    first_with_epoch epoch (stateVector d) = Some i /\
    float_text (X_DOT i) = Py.Ok vx /\
    float_text (Y_DOT i) = Py.Ok vy /\
    float_text (Z_DOT i) = Py.Ok vz /\
    s = norm3 vx vy vz.
Proof.
  unfold showSpeed. intros H.
  destruct (first_with_epoch epoch (stateVector d)) as [i |] eqn:Hi;
    [| discriminate H].
  destruct (float_text (X_DOT i)) as [vx | e] eqn:Hx; [| discriminate H].
  destruct (float_text (Y_DOT i)) as [vy | e] eqn:Hy; [| discriminate H].
  destruct (float_text (Z_DOT i)) as [vz | e] eqn:Hz; [| discriminate H].
  cbn [Py.bind] in H. injection H as <-.
  exists i, vx, vy, vz. repeat split; assumption.
Qed.

(** X5: the first entry wins.  When an epoch occurs more than once in the
    series, [showStateVectors] returns the first state vector that has
    it, and [showSpeed] and [getLocation] answer as they do on the series
    of that state vector alone; later entries with the epoch are never
    reached. *)
Theorem lookup_first_match
    (reverse : R -> R -> Z -> Py.result (option string))
    (d : Oem) (l1 l2 : list StateVector) (sv : StateVector) :
  stateVector d = (l1 ++ sv :: l2)%list ->
  Forall (fun x => EPOCH x <> EPOCH sv) l1 ->
  showStateVectors (Some d) (EPOCH sv) = Py.Ok (Json sv) /\
  showSpeed (Some d) (EPOCH sv) = showSpeed (Some (alone sv)) (EPOCH sv) /\
  getLocation reverse (Some d) (EPOCH sv)
  = getLocation reverse (Some (alone sv)) (EPOCH sv).
Proof.
  intros Hd Hl1.
  assert (Hf : first_with_epoch (EPOCH sv) (stateVector d) = Some sv)
    by (rewrite Hd; apply first_with_epoch_first; exact Hl1).
  assert (Hs : first_with_epoch (EPOCH sv) (stateVector (alone sv)) = Some sv)
    by (apply (first_with_epoch_first [] [] sv); constructor).
  unfold showStateVectors, showSpeed, getLocation.
  rewrite Hf, Hs. repeat split; reflexivity.
Qed.

(** X5 at the series in which the epoch of 12:04 occurs twice. *)
Lemma lookup_first_match_witness :
  let first := vector "2023-050T12:00:00.000Z" "7000" "0" "0" "1" "0" "0" in
  let second := vector "2023-050T12:04:00.000Z" "0" "7000" "0" "0" "1" "0" in
  let third := vector "2023-050T12:04:00.000Z" "0" "0" "7000" "3" "4" "0" in
  stateVector doubled = ([first] ++ second :: [third])%list /\
  Forall (fun x => EPOCH x <> EPOCH second) [first] /\
  showStateVectors (Some doubled) "2023-050T12:04:00.000Z" = Py.Ok (Json second) /\
  showSpeed (Some doubled) "2023-050T12:04:00.000Z"
  = showSpeed (Some (alone second)) "2023-050T12:04:00.000Z" /\
  getLocation no_place (Some doubled) "2023-050T12:04:00.000Z"
  = getLocation no_place (Some (alone second)) "2023-050T12:04:00.000Z".
Proof.
  intros first second third.
  assert (Hd : stateVector doubled = ([first] ++ second :: [third])%list)
    by reflexivity.
  assert (Hl1 : Forall (fun x => EPOCH x <> EPOCH second) [first])
    by (repeat constructor; discriminate).
  repeat (split; [assumption |]).
  exact (lookup_first_match no_place doubled [first] [third] second Hd Hl1).
Defined.

(** ** The speed *)

Lemma norm3_nonneg (a b c : R) : (0 <= norm3 a b c)%R.
Proof. unfold norm3. apply sqrt_pos. Qed.

Lemma norm3_square (a b c : R) :
  (norm3 a b c * norm3 a b c = a ^ 2 + b ^ 2 + c ^ 2)%R.
Proof. unfold norm3. apply sqrt_sqrt. nra. Qed.

Lemma norm3_zero (a b c : R) :
  norm3 a b c = 0%R <-> a = 0%R /\ b = 0%R /\ c = 0%R.
Proof.
  split.
  - intros H. pose proof (norm3_square a b c) as Hs. rewrite H in Hs.
    repeat split; nra.
  - intros (-> & -> & ->). unfold norm3.
    replace (0 ^ 2 + 0 ^ 2 + 0 ^ 2)%R with 0%R by ring. apply sqrt_0.
Qed.

(** The norm is at least the size of each component and at most the sum
    of the sizes. *)
Lemma norm3_bounds (a b c : R) :
  (Rabs a <= norm3 a b c /\ Rabs b <= norm3 a b c /\ Rabs c <= norm3 a b c /\
   norm3 a b c <= Rabs a + Rabs b + Rabs c)%R.
Proof.
  pose proof (norm3_nonneg a b c) as Hn.
  pose proof (norm3_square a b c) as Hs.
  pose proof (Rabs_pos a) as Ha. pose proof (Rabs_pos b) as Hb.
  pose proof (Rabs_pos c) as Hc.
  pose proof (pow2_abs a) as Ha2. pose proof (pow2_abs b) as Hb2.
  pose proof (pow2_abs c) as Hc2.
  repeat split; nra.
Qed.

(** X6: a speed that [showSpeed] returns is computed from the velocity
    of the first state vector with the epoch, and it is not negative.
    When the square of no component underflows or overflows, the speed
    is at least the size of each component and at most the sum of the
    three sizes, and it is zero only when the three components are
    zero. *)
Theorem showSpeed_bounds (d : Oem) (epoch : string) (s : R) :
  showSpeed (Some d) epoch = Py.Ok (SpeedDict s) ->
  exists i vx vy vz,
    first_with_epoch epoch (stateVector d) = Some i /\
    float_text (X_DOT i) = Py.Ok vx /\
    float_text (Y_DOT i) = Py.Ok vy /\
    float_text (Z_DOT i) = Py.Ok vz /\
    (0 <= s)%R /\
    (squares_safely vx -> squares_safely vy -> squares_safely vz ->
     (Rabs vx <= s)%R /\ (Rabs vy <= s)%R /\ (Rabs vz <= s)%R /\
     (s <= Rabs vx + Rabs vy + Rabs vz)%R /\
     (s = 0%R <-> vx = 0%R /\ vy = 0%R /\ vz = 0%R)).
Proof.
  intros H. destruct (showSpeed_inv d epoch s H)
    as (i & vx & vy & vz & Hi & Hx & Hy & Hz & ->).
  destruct (norm3_bounds vx vy vz) as (Bx & By & Bz & Bs).
  exists i, vx, vy, vz.
  repeat (split; [assumption |]).
  split; [apply norm3_nonneg |].
  intros _ _ _. repeat (split; [assumption |]).
  apply norm3_zero.
Qed.

(** The components of the velocity of the noon scenario square safely. *)
Lemma squares_safely_unit : squares_safely 1 /\ squares_safely 0.
Proof.
  split; [right | left; reflexivity].
  assert (H : (1 <= 2 ^ 500)%R) by (apply pow_R1_Rle; lra).
  rewrite Rabs_R1. split; [| exact H].
  rewrite <- Rinv_1. apply Rinv_le_contravar; [lra | exact H].
Qed.

(** X6 at the noon scenario. *)
Lemma showSpeed_bounds_witness :
  showSpeed (Some scenario) "2023-050T12:00:00.000Z"
    = Py.Ok (SpeedDict (norm3 1 0 0)) /\
  exists i vx vy vz,
    first_with_epoch "2023-050T12:00:00.000Z" (stateVector scenario) = Some i /\
    float_text (X_DOT i) = Py.Ok vx /\
    float_text (Y_DOT i) = Py.Ok vy /\
    float_text (Z_DOT i) = Py.Ok vz /\
    (0 <= norm3 1 0 0)%R /\
    (squares_safely vx -> squares_safely vy -> squares_safely vz ->
     (Rabs vx <= norm3 1 0 0)%R /\ (Rabs vy <= norm3 1 0 0)%R /\
     (Rabs vz <= norm3 1 0 0)%R /\
     (norm3 1 0 0 <= Rabs vx + Rabs vy + Rabs vz)%R /\
     (norm3 1 0 0 = 0%R <-> vx = 0%R /\ vy = 0%R /\ vz = 0%R)).
Proof.
  assert (H : showSpeed (Some scenario) "2023-050T12:00:00.000Z"
              = Py.Ok (SpeedDict (norm3 1 0 0))).
  { apply (showSpeed_at scenario _ sample_noon 1 0 0);
      [reflexivity | | |]; apply float_text_int; reflexivity. }
  split; [exact H |].
  exact (showSpeed_bounds scenario "2023-050T12:00:00.000Z" (norm3 1 0 0) H).
Defined.

(** ** Epochs that are not in the series *)

(** X7: the three handlers that look an epoch up agree on what is
    missing.  Each returns its message that the epoch was not found
    exactly when no state vector of the series has the epoch; for an
    epoch of the series none of them returns that message, whatever else
    goes wrong. *)
Theorem lookups_miss_together
    (reverse : R -> R -> Z -> Py.result (option string))
    (d : Oem) (epoch : string) :
  let missing := forall sv, In sv (stateVector d) -> EPOCH sv <> epoch in
  (missing <->
   showStateVectors (Some d) epoch
   = Py.Ok (Text ("Epoch " ++ epoch ++ " cannot be found in the data set" ++ nl))) /\
  (missing <->
   showSpeed (Some d) epoch
   = Py.Ok (Text ("Epoch " ++ epoch ++ " was not found in the data set" ++ nl))) /\
  (missing <->
   getLocation reverse (Some d) epoch
   = Py.Ok (Text ("Epoch " ++ epoch ++ " was not found in the data set" ++ nl))).
Proof.
  intros missing. unfold missing.
  rewrite <- first_with_epoch_none.
  unfold showStateVectors, showSpeed, getLocation.
  destruct (first_with_epoch epoch (stateVector d)) as [i |].
  - repeat split; intros H; try discriminate H; exfalso.
    + destruct (float_text (X_DOT i)); [| discriminate H].
      destruct (float_text (Y_DOT i)); [| discriminate H].
      destruct (float_text (Z_DOT i)); discriminate H.
    + destruct (float_text (X i)); [| discriminate H].
      destruct (float_text (Y i)); [| discriminate H].
      destruct (float_text (Z_ i)); [| discriminate H].
      destruct (hours_of epoch); [| discriminate H].
      destruct (minutes_of epoch); [| discriminate H].
      cbn [Py.bind] in H.
      destruct (reverse _ _ _) as [[place |] | e]; discriminate H.
  - repeat split; reflexivity.
Qed.

(** ** Ranges of the projection *)

Lemma degrees_le (a b : R) : (a <= b)%R -> (Py.degrees a <= Py.degrees b)%R.
Proof.
  intros H. unfold Py.degrees. apply Rmult_le_compat_r; [| exact H].
  pose proof PI_RGT_0. apply Rlt_le. apply Rdiv_lt_0_compat; lra.
Qed.

Lemma degrees_half_turn : Py.degrees PI = 180%R.
Proof. unfold Py.degrees. pose proof PI_neq0. field. assumption. Qed.

Lemma degrees_neg (a : R) : Py.degrees (- a) = (- Py.degrees a)%R.
Proof. unfold Py.degrees. lra. Qed.

Lemma degrees_quarter : Py.degrees (PI / 2) = 90%R.
Proof. unfold Py.degrees. pose proof PI_neq0. field. assumption. Qed.

(** [atan2] is an angle of the half-open turn from [-PI] to [PI]. *)
Lemma atan2_range (y x : R) : (- PI < Py.atan2 y x <= PI)%R.
Proof.
  pose proof PI_RGT_0 as Hpi. unfold Py.atan2.
  destruct (Rlt_dec 0 x) as [Hx | Hx].
  - pose proof (atan_bound (y / x)). lra.
  - destruct (Rlt_dec x 0) as [Hx' | Hx'].
    + pose proof (atan_bound (y / x)) as Hb.
      destruct (Rle_dec 0 y) as [Hy | Hy].
      * assert (Hq : (y / x <= 0)%R).
        { unfold Rdiv. pose proof (Rinv_lt_0_compat x Hx'). nra. }
        assert (Ha : (atan (y / x) <= 0)%R).
        { destruct Hq as [Hlt | Heq].
          - apply Rlt_le. rewrite <- atan_0. apply atan_increasing. exact Hlt.
          - rewrite Heq, atan_0. lra. }
        lra.
      * assert (Hq : (0 < y / x)%R).
        { unfold Rdiv. pose proof (Rinv_lt_0_compat x Hx'). nra. }
        assert (Ha : (0 < atan (y / x))%R)
          by (rewrite <- atan_0; apply atan_increasing; exact Hq).
        lra.
    + destruct (Rlt_dec 0 y); [lra |]. destruct (Rlt_dec y 0); lra.
Qed.

(** To the right of the vertical axis, and on it, [atan2] is an angle of
    the closed half turn from [-PI/2] to [PI/2]. *)
Lemma atan2_right_half (y x : R) :
  (0 <= x)%R -> (- (PI / 2) <= Py.atan2 y x <= PI / 2)%R.
Proof.
  intros Hx. pose proof PI_RGT_0 as Hpi. unfold Py.atan2.
  destruct (Rlt_dec 0 x) as [Hx' | Hx'].
  - pose proof (atan_bound (y / x)). lra.
  - destruct (Rlt_dec x 0); [lra |].
    destruct (Rlt_dec 0 y); [lra |]. destruct (Rlt_dec y 0); lra.
Qed.

Lemma latitude_range (x y z : R) : (-90 <= latitude x y z <= 90)%R.
Proof.
  unfold latitude.
  pose proof (atan2_right_half z (sqrt (x ^ 2 + y ^ 2)) (sqrt_pos _)) as [Hlo Hhi].
  apply degrees_le in Hlo. apply degrees_le in Hhi.
  rewrite degrees_neg, degrees_quarter in Hlo. rewrite degrees_quarter in Hhi.
  lra.
Qed.

Lemma inertial_longitude_range (x y : R) :
  (-180 <= Py.degrees (Py.atan2 y x) <= 180)%R.
Proof.
  pose proof (atan2_range y x) as [Hlo Hhi].
  apply Rlt_le in Hlo. apply degrees_le in Hlo. apply degrees_le in Hhi.
  rewrite degrees_neg, degrees_half_turn in Hlo. rewrite degrees_half_turn in Hhi.
  lra.
Qed.

(** X8: the longitude after the wrap is within [-180, 180] exactly when
    the longitude before the wrap is within [-180, 540]: one turn too far
    east is repaired, any excess to the west is made worse by a turn. *)
Theorem wrap_longitude_in_range_iff (lon : R) :
  (-180 <= wrap_longitude lon <= 180)%R <-> (-180 <= lon <= 540)%R.
Proof.
  destruct (Rle_dec lon 180) as [Hle | Hgt].
  - destruct (Rle_dec (-180) lon) as [Hge | Hlt].
    + rewrite wrap_longitude_inside by lra. lra.
    + rewrite wrap_longitude_outside by lra. lra.
  - rewrite wrap_longitude_outside by lra. lra.
Qed.

(** X9: in every location that [getLocation] returns the latitude is
    within [-90, 90] and the altitude is at least minus the radius of the
    Earth. *)
Theorem getLocation_latitude_altitude_range
    (reverse : R -> R -> Z -> Py.result (option string))
    (d : Oem) (epoch : string) (loc : Location) :
  getLocation reverse (Some d) epoch = Py.Ok (LocationDict loc) ->
  (-90 <= Latitude loc <= 90)%R /\ (- 6371 <= altitude loc)%R.
Proof.
  intros H. destruct (getLocation_inv reverse d epoch loc H)
    as (i & x & y & z & hrs & mins & geoloc & _ & _ & _ & _ & _ & _ & _ & ->).
  cbn [Latitude altitude]. split; [apply latitude_range |].
  unfold altitude_km, MEAN_EARTH_RADIUS.
  pose proof (norm3_nonneg x y z). lra.
Qed.

(** X10: for a time of day, that is an hour from 0 to 23 and a minute from
    0 up to 60, the longitude that [getLocation] returns is either within
    [-180, 180] or within [-696, -540]: it never exceeds 180, and when
    it is below -180 it is so by a turn at least. *)
Theorem getLocation_longitude_range
    (reverse : R -> R -> Z -> Py.result (option string))
    (d : Oem) (epoch : string) (loc : Location) (hrs mins : R) :
  getLocation reverse (Some d) epoch = Py.Ok (LocationDict loc) ->
  hours_of epoch = Py.Ok hrs -> minutes_of epoch = Py.Ok mins ->
  (0 <= hrs <= 23)%R -> (0 <= mins < 60)%R ->
  (-180 <= Longitude loc <= 180)%R \/ (-696 <= Longitude loc <= -540)%R.
Proof.
  intros H Hh Hm Hhrs Hmins.
  destruct (getLocation_inv reverse d epoch loc H)
    as (i & x & y & z & hrs' & mins' & geoloc & _ & _ & _ & _ & Hh' & Hm' & _ & ->).
  rewrite Hh in Hh'. injection Hh' as <-.
  rewrite Hm in Hm'. injection Hm' as <-.
  cbn [Longitude].
  pose proof (inertial_longitude_range x y) as Hin.
  assert (Hraw : (-336 < raw_longitude x y hrs mins <= 384)%R)
    by (unfold raw_longitude; lra).
  destruct (Rle_dec (-180) (raw_longitude x y hrs mins)) as [Hge | Hlt].
  - left. apply wrap_longitude_east. lra.
  - right. rewrite wrap_longitude_outside by lra. lra.
Qed.

(** The location of the noon scenario when the geocoder finds nothing. *)
Lemma scenario_location :
  getLocation no_place (Some scenario) "2023-050T12:00:00.000Z"
  = Py.Ok (LocationDict
             {| Latitude := 0; Longitude := 24; altitude := 629; geo := ocean |}).
Proof.
  destruct noon_projection as (Hlat & _ & Hlon & Halt).
  rewrite (getLocation_at no_place scenario _ sample_noon 7000 0 0 12 0);
    try reflexivity;
    first [ apply float_text_int; reflexivity
          | apply hours_of_int; reflexivity
          | apply minutes_of_int; reflexivity
          | idtac ].
  rewrite Hlat, Hlon, Halt. reflexivity.
Qed.

(** X9 at the noon scenario. *)
Lemma getLocation_latitude_altitude_range_witness :
  getLocation no_place (Some scenario) "2023-050T12:00:00.000Z"
  = Py.Ok (LocationDict
             {| Latitude := 0; Longitude := 24; altitude := 629; geo := ocean |}) /\
  (-90 <= 0 <= 90)%R /\ (- 6371 <= 629)%R.
Proof.
  split; [exact scenario_location |].
  exact (getLocation_latitude_altitude_range no_place scenario _ _ scenario_location).
Defined.

(** X10 at the noon scenario. *)
Lemma getLocation_longitude_range_witness :
  getLocation no_place (Some scenario) "2023-050T12:00:00.000Z"
  = Py.Ok (LocationDict
             {| Latitude := 0; Longitude := 24; altitude := 629; geo := ocean |}) /\
  hours_of "2023-050T12:00:00.000Z" = Py.Ok 12%R /\
  minutes_of "2023-050T12:00:00.000Z" = Py.Ok 0%R /\
  (0 <= 12 <= 23)%R /\ (0 <= 0 < 60)%R /\
  ((-180 <= 24 <= 180)%R \/ (-696 <= 24 <= -540)%R).
Proof.
  assert (Hh : hours_of "2023-050T12:00:00.000Z" = Py.Ok 12%R)
    by (apply hours_of_int; reflexivity).
  assert (Hm : minutes_of "2023-050T12:00:00.000Z" = Py.Ok 0%R)
    by (apply minutes_of_int; reflexivity).
  assert (Hhrs : (0 <= 12 <= 23)%R) by lra.
  assert (Hmins : (0 <= 0 < 60)%R) by lra.
  split; [exact scenario_location |].
  repeat (split; [assumption |]).
  exact (getLocation_longitude_range no_place scenario _ _ 12 0
           scenario_location Hh Hm Hhrs Hmins).
Defined.

(** ** Epochs that are too short *)

Lemma length_list_ascii (s : string) :
  List.length (list_ascii_of_string s) = String.length s.
Proof. induction s as [| c s IH]; simpl; [reflexivity | rewrite IH; reflexivity]. Qed.

(** On a text of at most 20 characters the slice [9:-11] is empty. *)
Lemma hour_slice_empty (epoch : string) :
  (String.length epoch <= 20)%nat ->
  Py.substr (Some 9) (Some (-11)) epoch = "".
Proof.
  intros Hlen. unfold Py.substr, Py.slice, Py.slice_index.
  rewrite length_list_ascii.
  destruct (Z.ltb_spec 9 0) as [Hneg | _]; [lia |].
  destruct (Z.ltb_spec (-11) 0) as [_ | Hpos]; [| lia].
  replace (Z.to_nat (Z.max 0 (-11 + Z.of_nat (String.length epoch))
                     - Z.min 9 (Z.of_nat (String.length epoch)))) with 0%nat by lia.
  reflexivity.
Qed.

(** X11: [getLocation] needs the fraction of a second in the epoch.  For
    every epoch of the series that has at most 20 characters, such as
    one cut after the seconds, the slice for the hour is empty and the
    handler raises [ValueError]; it returns no location and no message. *)
Theorem getLocation_short_epoch
    (reverse : R -> R -> Z -> Py.result (option string))
    (d : Oem) (epoch : string) (i : StateVector) :
  first_with_epoch epoch (stateVector d) = Some i ->
  (String.length epoch <= 20)%nat ->
  getLocation reverse (Some d) epoch = Py.Raise Py.ValueError.
Proof.
  intros Hi Hlen. unfold getLocation. rewrite Hi.
  assert (Hh : hours_of epoch = Py.Raise Py.ValueError).
  { unfold hours_of. rewrite (hour_slice_empty epoch Hlen). reflexivity. }
  rewrite Hh. unfold float_text.
  destruct (Py.float (text (X i))); [| reflexivity].
  destruct (Py.float (text (Y i))); [| reflexivity].
  destruct (Py.float (text (Z_ i))); reflexivity.
Qed.

(** X11 at the scenario whose time stamp is cut after the seconds. *)
Lemma getLocation_short_epoch_witness :
  first_with_epoch "2023-050T12:00:00" (stateVector scenario_short)
    = Some sample_noon_short /\
  (String.length "2023-050T12:00:00" <= 20)%nat /\
  getLocation no_place (Some scenario_short) "2023-050T12:00:00"
    = Py.Raise Py.ValueError.
Proof.
  assert (Hi : first_with_epoch "2023-050T12:00:00" (stateVector scenario_short)
               = Some sample_noon_short) by reflexivity.
  assert (Hlen : (String.length "2023-050T12:00:00" <= 20)%nat) by (simpl; lia).
  repeat (split; [assumption |]).
  exact (getLocation_short_epoch no_place scenario_short _ _ Hi Hlen).
Defined.

(** ** A geocoder that fails *)

(** X12: an exception of the geocoder is not caught.  Whenever
    [getLocation] returns a location for an epoch, which it does with a
    geocoder that answers, it raises, with a geocoder that raises for the
    point of that location, the exception of that geocoder: the text for
    the open sea stands in for the answer [None] only. *)
Theorem getLocation_geocoder_raises
    (reverse0 reverse : R -> R -> Z -> Py.result (option string))
    (d : Oem) (epoch : string) (loc : Location) (e : Py.exn) :
  getLocation reverse0 (Some d) epoch = Py.Ok (LocationDict loc) ->
  reverse (Latitude loc) (Longitude loc) 1 = Py.Raise e ->
  getLocation reverse (Some d) epoch = Py.Raise e.
Proof.
  intros H Hrev.
  rewrite (getLocation_same_point reverse0 reverse d epoch loc H).
  rewrite Hrev. reflexivity.
Qed.

(** X12 at the noon scenario: a geocoder that finds nothing, and one that
    cannot be reached. *)
Lemma getLocation_geocoder_raises_witness :
  getLocation no_place (Some scenario) "2023-050T12:00:00.000Z"
    = Py.Ok (LocationDict
               {| Latitude := 0; Longitude := 24; altitude := 629; geo := ocean |}) /\
  no_service 0%R 24%R 1 = Py.Raise Py.CollaboratorError /\
  getLocation no_service (Some scenario) "2023-050T12:00:00.000Z"
    = Py.Raise Py.CollaboratorError.
Proof.
  assert (Hr : no_service 0%R 24%R 1 = Py.Raise Py.CollaboratorError)
    by reflexivity.
  split; [exact scenario_location |]. split; [exact Hr |].
  exact (getLocation_geocoder_raises no_place no_service scenario _ _
           Py.CollaboratorError scenario_location Hr).
Defined.

(** ** What a reply of [getNowLoc] is made of *)

Section NowReply.

Variable reverse : R -> R -> Z -> Py.result (option string).
Variable mktime_strptime : string -> option R.
Variable time_now : R.

(** The first loop raises as soon as an epoch does not convert. *)
Lemma scan_raises (svs : list StateVector) (sv : StateVector) (st : Scan) :
  In sv svs -> seconds_of mktime_strptime (EPOCH sv) = None ->
  scan mktime_strptime time_now svs st = Py.Raise Py.ValueError.
Proof.
  intros Hin Hbad. revert st.
  induction svs as [| x svs IH]; intros st; [contradiction |].
  cbn [scan].
  destruct (seconds_of mktime_strptime (EPOCH x)) as [t |] eqn:Ht;
    cbn [Py.orRaise Py.bind]; [| reflexivity].
  destruct Hin as [-> | Hin]; [rewrite Hbad in Ht; discriminate Ht |].
  destruct (below _ _); apply IH; exact Hin.
Qed.

(** The first loop ends only if every epoch converts. *)
Lemma scan_ok_converts (svs : list StateVector) (st st' : Scan) :
  scan mktime_strptime time_now svs st = Py.Ok st' ->
  Forall (converts (seconds_of mktime_strptime)) svs.
Proof.
  intros H. apply Forall_forall. intros sv Hin Hbad.
  rewrite (scan_raises svs sv st Hin Hbad) in H. discriminate H.
Qed.

(** What the second loop has done when its body returns a reply. *)
Lemma now_body_inv (st : Scan) (i : StateVector) (r : Now) :
  now_body reverse st i = Py.Ok (NowDict r) ->
  exists x y z last_epoch hrs mins geoloc vx vy vz nearest_epoch et,
    float_text (X i) = Py.Ok x /\
    float_text (Y i) = Py.Ok y /\
    float_text (Z_ i) = Py.Ok z /\
    epoch_ st = Some last_epoch /\
    hours_of last_epoch = Py.Ok hrs /\
    minutes_of last_epoch = Py.Ok mins /\
    reverse (latitude x y z) (wrap_longitude (raw_longitude x y hrs mins)) 10
      = Py.Ok geoloc /\
    float_text (X_DOT i) = Py.Ok vx /\
    float_text (Y_DOT i) = Py.Ok vy /\
    float_text (Z_DOT i) = Py.Ok vz /\
    now_epoch st = Some nearest_epoch /\
    epoch_time st = Some et /\
    r = {| Closest_epoch := nearest_epoch;
           epochTime := et;
           Seconds_from_now := smallest_diff st;
           Location_ :=
             {| Latitude := latitude x y z;
                Longitude := wrap_longitude (raw_longitude x y hrs mins);
                altitude := altitude_km x y z;
                geo := match geoloc with Some place => place | None => ocean end |};
           Speed := norm3 vx vy vz |}.
Proof.
  unfold now_body, local. intros H.
  destruct (float_text (X i)) as [x | e] eqn:Hx; [| discriminate H].
  destruct (float_text (Y i)) as [y | e] eqn:Hy; [| discriminate H].
  destruct (float_text (Z_ i)) as [z | e] eqn:Hz; [| discriminate H].
  cbn [Py.bind] in H.
  destruct (epoch_ st) as [last_epoch |] eqn:He; [| discriminate H].
  cbn [Py.orRaise Py.bind] in H.
  destruct (hours_of last_epoch) as [hrs | e] eqn:Hh; [| discriminate H].
  destruct (minutes_of last_epoch) as [mins | e] eqn:Hm; [| discriminate H].
  cbn [Py.bind] in H.
  destruct (reverse _ _ _) as [geoloc | e] eqn:Hr; [| discriminate H].
  cbn [Py.bind] in H.
  destruct (float_text (X_DOT i)) as [vx | e] eqn:Hvx; [| discriminate H].
  destruct (float_text (Y_DOT i)) as [vy | e] eqn:Hvy; [| discriminate H].
  destruct (float_text (Z_DOT i)) as [vz | e] eqn:Hvz; [| discriminate H].
  cbn [Py.bind] in H.
  destruct (now_epoch st) as [nearest_epoch |] eqn:Hn; [| discriminate H].
  destruct (epoch_time st) as [et |] eqn:Het; [| discriminate H].
  cbn [Py.orRaise Py.bind] in H.
  exists x, y, z, last_epoch, hrs, mins, geoloc, vx, vy, vz, nearest_epoch, et.
  repeat (split; [first [assumption | reflexivity] |]).
  destruct geoloc; injection H as <-; reflexivity.
Qed.

(** What [getNowLoc] has done when it returns a reply: the series is not
    empty, the first loop has ended in a state [st], and the body of the
    second loop has run at the first entry [i] with the kept epoch. *)
Lemma getNowLoc_inv (d : Oem) (r : Now) :
  getNowLoc reverse mktime_strptime (Some d) time_now = Py.Ok (NowDict r) ->
  exists st i,
    stateVector d <> [] /\
    scan mktime_strptime time_now (stateVector d) scan_start = Py.Ok st /\
    first_with_epoch (Closest_epoch r) (stateVector d) = Some i /\
    now_epoch st = Some (Closest_epoch r) /\
    now_body reverse st i = Py.Ok (NowDict r).
Proof.
  unfold getNowLoc. cbv zeta. intros H.
  destruct (scan mktime_strptime time_now (stateVector d) scan_start)
    as [st | e] eqn:Hscan; [| discriminate H].
  cbn [Py.bind] in H.
  destruct (stateVector d) as [| x rest] eqn:Hd.
  - unfold now_not_found, local in H.
    destruct (epoch_ st); discriminate H.
  - unfold local in H.
    destruct (now_epoch st) as [ne |] eqn:Hne; [| discriminate H].
    cbn [Py.orRaise Py.bind] in H.
    destruct (first_with_epoch ne (x :: rest)) as [i |] eqn:Hi.
    + destruct (now_body_inv st i r H)
        as (? & ? & ? & ? & ? & ? & ? & ? & ? & ? & ne' & ? &
            _ & _ & _ & _ & _ & _ & _ & _ & _ & _ & Hne' & _ & Hr).
      assert (Hc : Closest_epoch r = ne).
      { rewrite Hr. cbn [Closest_epoch]. congruence. }
      rewrite Hc. exists st, i. repeat split; try assumption. discriminate.
    + unfold now_not_found, local in H.
      destruct (epoch_ st); discriminate H.
Qed.

End NowReply.

(** ** Worked replies of [getNowLoc] *)

(** On the series of two with the clock at its first epoch. *)
Lemma pair_now :
  getNowLoc no_place utc_mktime (Some pair) 1676808000
  = Py.Ok (NowDict
             {| Closest_epoch := "2023-050T12:00:00.000Z";
                epochTime := 1676808240;
                Seconds_from_now := Some 0%R;
                Location_ := {| Latitude := 0; Longitude := 23;
                                altitude := 629; geo := ocean |};
                Speed := 1 |}).
Proof.
  destruct noon_projection as (Hlat & _ & _ & Halt).
  rewrite (getNowLoc_at no_place utc_mktime 1676808000 pair _
             "2023-050T12:00:00.000Z" sample_noon
             ltac:(discriminate) pair_scan eq_refl eq_refl).
  rewrite (now_body_at no_place _ sample_noon 7000 0 0 12 4 1 0 0 1676808240
             "2023-050T12:04:00.000Z" "2023-050T12:00:00.000Z" None);
    try reflexivity;
    first [ apply float_text_int; reflexivity
          | apply hours_of_int; reflexivity
          | apply minutes_of_int; reflexivity
          | idtac ].
  cbn [smallest_diff].
  rewrite Hlat, next_projection, Halt, (norm3_x 1) by lra. reflexivity.
Qed.

(** The first loop on the series of two, with the clock at its second
    epoch. *)
Lemma pair_scan_late :
  scan utc_mktime 1676808240 (stateVector pair) scan_start
  = Py.Ok {| smallest_diff := Some 0%R;
             now_epoch := Some "2023-050T12:04:00.000Z";
             epoch_ := Some "2023-050T12:04:00.000Z";
             epoch_time := Some 1676808240%R |}.
Proof.
  cbn [stateVector pair].
  rewrite (scan_closer _ _ _ _ _ 1676808000);
    [| exact seconds_1200 | reflexivity ].
  rewrite (scan_closer _ _ _ _ _ 1676808240);
    [| exact seconds_1204
     | cbn [below smallest_diff]; apply lt_true; abs_lra ].
  cbn [scan EPOCH sample_next vector].
  do 2 f_equal. f_equal. abs_lra.
Qed.

(** On the series of two with the clock at its second epoch. *)
Lemma pair_now_late :
  getNowLoc no_place utc_mktime (Some pair) 1676808240
  = Py.Ok (NowDict
             {| Closest_epoch := "2023-050T12:04:00.000Z";
                epochTime := 1676808240;
                Seconds_from_now := Some 0%R;
                Location_ := {| Latitude := 0; Longitude := 23;
                                altitude := 629; geo := ocean |};
                Speed := 1 |}).
Proof.
  destruct noon_projection as (Hlat & _ & _ & Halt).
  rewrite (getNowLoc_at no_place utc_mktime 1676808240 pair _
             "2023-050T12:04:00.000Z" sample_next
             ltac:(discriminate) pair_scan_late eq_refl eq_refl).
  rewrite (now_body_at no_place _ sample_next 7000 0 0 12 4 1 0 0 1676808240
             "2023-050T12:04:00.000Z" "2023-050T12:04:00.000Z" None);
    try reflexivity;
    first [ apply float_text_int; reflexivity
          | apply hours_of_int; reflexivity
          | apply minutes_of_int; reflexivity
          | idtac ].
  cbn [smallest_diff].
  rewrite Hlat, next_projection, Halt, (norm3_x 1) by lra. reflexivity.
Qed.

(** ** Properties of every reply of [getNowLoc] *)

(** X13: one epoch that does not convert, anywhere in the series, makes
    [getNowLoc] raise [ValueError], however near or far from the clock
    that epoch and the others are. *)
Theorem getNowLoc_bad_epoch
    (reverse : R -> R -> Z -> Py.result (option string))
    (mktime_strptime : string -> option R) (time_now : R)
    (d : Oem) (sv : StateVector) :
  In sv (stateVector d) ->
  seconds_of mktime_strptime (EPOCH sv) = None ->
  getNowLoc reverse mktime_strptime (Some d) time_now = Py.Raise Py.ValueError.
Proof.
  intros Hin Hbad. unfold getNowLoc. cbv zeta.
  rewrite (scan_raises mktime_strptime time_now _ sv scan_start Hin Hbad).
  reflexivity.
Qed.

(** X13 at the series whose second epoch has a blank for the [T], with
    the clock at its first epoch. *)
Lemma getNowLoc_bad_epoch_witness :
  let bad := vector "2023-050 12:04:00.000Z" "0" "7000" "0" "0" "1" "0" in
  In bad (stateVector damaged) /\
  seconds_of utc_mktime (EPOCH bad) = None /\
  getNowLoc no_place utc_mktime (Some damaged) 1676808000
    = Py.Raise Py.ValueError.
Proof.
  intros bad.
  assert (Hin : In bad (stateVector damaged)) by (right; left; reflexivity).
  assert (Hbad : seconds_of utc_mktime (EPOCH bad) = None) by reflexivity.
  repeat (split; [assumption |]).
  exact (getNowLoc_bad_epoch no_place utc_mktime 1676808000 damaged bad Hin Hbad).
Defined.

(** X14: in every reply of [getNowLoc], [Closest_epoch] is the epoch of a
    state vector of the series, [Seconds_from_now] is the distance of
    that epoch from the clock, and no state vector of the series is
    nearer to the clock. *)
Theorem getNowLoc_reply_nearest
    (reverse : R -> R -> Z -> Py.result (option string))
    (mktime_strptime : string -> option R) (time_now : R)
    (d : Oem) (r : Now) :
  getNowLoc reverse mktime_strptime (Some d) time_now = Py.Ok (NowDict r) ->
  exists sv t,
    In sv (stateVector d) /\
    EPOCH sv = Closest_epoch r /\
    seconds_of mktime_strptime (EPOCH sv) = Some t /\
    Seconds_from_now r = Some (Rabs (t - time_now)) /\
    forall sv' t',
      In sv' (stateVector d) ->
      seconds_of mktime_strptime (EPOCH sv') = Some t' ->
      (Rabs (t - time_now) <= Rabs (t' - time_now))%R.
Proof.
  intros H.
  destruct (getNowLoc_inv reverse mktime_strptime time_now d r H)
    as (st & i & Hne & Hscan & Hi & Hnow & Hbody).
  pose proof (scan_ok_converts _ _ _ _ _ Hscan) as Hconv.
  destruct (scan_first_nearest mktime_strptime time_now (stateVector d) Hne Hconv)
    as (l1 & sv & l2 & t & st' & Hdec & Ht & Hl1 & Hl2 & Hscan' & Hnow' & Hsm').
  rewrite Hscan in Hscan'. injection Hscan' as <-.
  destruct (now_body_inv reverse st i r Hbody)
    as (? & ? & ? & ? & ? & ? & ? & ? & ? & ? & ? & ? &
        _ & _ & _ & _ & _ & _ & _ & _ & _ & _ & _ & _ & Hr).
  exists sv, t. split; [rewrite Hdec; apply in_elt |].
  split; [congruence |]. split; [exact Ht |].
  split; [rewrite Hr; cbn [Seconds_from_now]; exact Hsm' |].
  intros sv' t' Hin Ht'. rewrite Hdec in Hin.
  apply in_app_or in Hin. destruct Hin as [Hin | [<- | Hin]].
  - rewrite Forall_forall in Hl1. apply Rlt_le. exact (Hl1 sv' Hin t' Ht').
  - rewrite Ht in Ht'. injection Ht' as <-. lra.
  - rewrite Forall_forall in Hl2. exact (Hl2 sv' Hin t' Ht').
Qed.

(** X14 at the series of two with the clock at its first epoch. *)
Lemma getNowLoc_reply_nearest_witness :
  let r := {| Closest_epoch := "2023-050T12:00:00.000Z";
              epochTime := 1676808240;
              Seconds_from_now := Some 0%R;
              Location_ := {| Latitude := 0; Longitude := 23;
                              altitude := 629; geo := ocean |};
              Speed := 1 |} in
  getNowLoc no_place utc_mktime (Some pair) 1676808000 = Py.Ok (NowDict r) /\
  exists sv t,
    In sv (stateVector pair) /\
    EPOCH sv = Closest_epoch r /\
    seconds_of utc_mktime (EPOCH sv) = Some t /\
    Seconds_from_now r = Some (Rabs (t - 1676808000)) /\
    forall sv' t',
      In sv' (stateVector pair) ->
      seconds_of utc_mktime (EPOCH sv') = Some t' ->
      (Rabs (t - 1676808000) <= Rabs (t' - 1676808000))%R.
Proof.
  intros r. split; [exact pair_now |].
  exact (getNowLoc_reply_nearest no_place utc_mktime 1676808000 pair r pair_now).
Defined.

(** X15: in every reply of [getNowLoc], [epochTime] is the time of the
    last state vector of the series, and the longitude is computed from
    the position of the first state vector with the closest epoch and
    the hour and minute of the epoch of the last one. *)
Theorem getNowLoc_time_of_last
    (reverse : R -> R -> Z -> Py.result (option string))
    (mktime_strptime : string -> option R) (time_now : R)
    (d : Oem) (r : Now) :
  getNowLoc reverse mktime_strptime (Some d) time_now = Py.Ok (NowDict r) ->
  exists l last hrs mins i x y,
    stateVector d = (l ++ [last])%list /\
    seconds_of mktime_strptime (EPOCH last) = Some (epochTime r) /\
    hours_of (EPOCH last) = Py.Ok hrs /\
    minutes_of (EPOCH last) = Py.Ok mins /\
    first_with_epoch (Closest_epoch r) (stateVector d) = Some i /\
    float_text (X i) = Py.Ok x /\
    float_text (Y i) = Py.Ok y /\
    Longitude (Location_ r) = wrap_longitude (raw_longitude x y hrs mins).
Proof.
  intros H.
  destruct (getNowLoc_inv reverse mktime_strptime time_now d r H)
    as (st & i & Hne & Hscan & Hi & Hnow & Hbody).
  destruct (exists_last Hne) as (l & last & Hd).
  rewrite Hd in Hscan.
  destruct (scan_leaves_last mktime_strptime time_now l last scan_start st Hscan)
    as [Hlast Htime].
  destruct (now_body_inv reverse st i r Hbody)
    as (x & y & z & le & hrs & mins & geoloc & vx & vy & vz & ne & et &
        Hx & Hy & _ & Hle & Hh & Hm & _ & _ & _ & _ & _ & Het & Hr).
  assert (Heq : le = EPOCH last) by congruence. subst le.
  exists l, last, hrs, mins, i, x, y.
  split; [exact Hd |].
  split; [rewrite Hr; cbn [epochTime]; congruence |].
  repeat (split; [assumption |]).
  rewrite Hr. reflexivity.
Qed.

(** X15 at the series of two with the clock at its first epoch. *)
Lemma getNowLoc_time_of_last_witness :
  let r := {| Closest_epoch := "2023-050T12:00:00.000Z";
              epochTime := 1676808240;
              Seconds_from_now := Some 0%R;
              Location_ := {| Latitude := 0; Longitude := 23;
                              altitude := 629; geo := ocean |};
              Speed := 1 |} in
  getNowLoc no_place utc_mktime (Some pair) 1676808000 = Py.Ok (NowDict r) /\
  exists l last hrs mins i x y,
    stateVector pair = (l ++ [last])%list /\
    seconds_of utc_mktime (EPOCH last) = Some (epochTime r) /\
    hours_of (EPOCH last) = Py.Ok hrs /\
    minutes_of (EPOCH last) = Py.Ok mins /\
    first_with_epoch (Closest_epoch r) (stateVector pair) = Some i /\
    float_text (X i) = Py.Ok x /\
    float_text (Y i) = Py.Ok y /\
    Longitude (Location_ r) = wrap_longitude (raw_longitude x y hrs mins).
Proof.
  intros r. split; [exact pair_now |].
  exact (getNowLoc_time_of_last no_place utc_mktime 1676808000 pair r pair_now).
Defined.

(** X16: when the closest epoch is the epoch of the last state vector of
    the series, the reply of [getNowLoc] is consistent: [epochTime] is
    the time of the closest epoch, and the longitude is the one that
    [getLocation] returns for the closest epoch. *)
Theorem getNowLoc_last_is_closest
    (reverse reverse' : R -> R -> Z -> Py.result (option string))
    (mktime_strptime : string -> option R) (time_now : R)
    (d : Oem) (r : Now) (l : list StateVector) (last : StateVector)
    (loc : Location) :
  getNowLoc reverse mktime_strptime (Some d) time_now = Py.Ok (NowDict r) ->
  stateVector d = (l ++ [last])%list ->
  Closest_epoch r = EPOCH last ->
  getLocation reverse' (Some d) (Closest_epoch r) = Py.Ok (LocationDict loc) ->
  seconds_of mktime_strptime (Closest_epoch r) = Some (epochTime r) /\
  Longitude loc = Longitude (Location_ r).
Proof.
  intros H Hd Hclosest Hloc.
  destruct (getNowLoc_inv reverse mktime_strptime time_now d r H)
    as (st & i & Hne & Hscan & Hi & Hnow & Hbody).
  rewrite Hd in Hscan.
  destruct (scan_leaves_last mktime_strptime time_now l last scan_start st Hscan)
    as [Hlast Htime].
  destruct (now_body_inv reverse st i r Hbody)
    as (x & y & z & le & hrs & mins & geoloc & vx & vy & vz & ne & et &
        Hx & Hy & _ & Hle & Hh & Hm & _ & _ & _ & _ & _ & Het & Hr).
  assert (Heq : le = EPOCH last) by congruence. subst le.
  destruct (getLocation_inv reverse' d _ loc Hloc)
    as (i' & x' & y' & z' & hrs' & mins' & geoloc' &
        Hi' & Hx' & Hy' & _ & Hh' & Hm' & _ & Hl).
  assert (Hii : i' = i) by congruence. subst i'.
  rewrite Hclosest in Hh', Hm'.
  assert (x' = x) by congruence. assert (y' = y) by congruence.
  assert (hrs' = hrs) by congruence. assert (mins' = mins) by congruence.
  subst. split.
  - rewrite Hclosest. cbn [epochTime]. congruence.
  - reflexivity.
Qed.

(** X16 at the series of two with the clock at its second epoch. *)
Lemma getNowLoc_last_is_closest_witness :
  let r := {| Closest_epoch := "2023-050T12:04:00.000Z";
              epochTime := 1676808240;
              Seconds_from_now := Some 0%R;
              Location_ := {| Latitude := 0; Longitude := 23;
                              altitude := 629; geo := ocean |};
              Speed := 1 |} in
  let loc := {| Latitude := 0; Longitude := 23; altitude := 629; geo := ocean |} in
  getNowLoc no_place utc_mktime (Some pair) 1676808240 = Py.Ok (NowDict r) /\
  stateVector pair = ([sample_noon] ++ [sample_next])%list /\
  Closest_epoch r = EPOCH sample_next /\
  getLocation no_place (Some pair) (Closest_epoch r) = Py.Ok (LocationDict loc) /\
  seconds_of utc_mktime (Closest_epoch r) = Some (epochTime r) /\
  Longitude loc = Longitude (Location_ r).
Proof.
  intros r loc.
  assert (Hd : stateVector pair = ([sample_noon] ++ [sample_next])%list)
    by reflexivity.
  assert (Hc : Closest_epoch r = EPOCH sample_next) by reflexivity.
  assert (Hloc : getLocation no_place (Some pair) (Closest_epoch r)
                 = Py.Ok (LocationDict loc)).
  { destruct noon_projection as (Hlat & _ & _ & Halt).
    cbn [Closest_epoch r].
    rewrite (getLocation_at no_place pair _ sample_next 7000 0 0 12 4);
      try reflexivity;
      first [ apply float_text_int; reflexivity
            | apply hours_of_int; reflexivity
            | apply minutes_of_int; reflexivity
            | idtac ].
    rewrite Hlat, next_projection, Halt. reflexivity. }
  split; [exact pair_now_late |].
  repeat (split; [assumption |]).
  exact (getNowLoc_last_is_closest no_place no_place utc_mktime 1676808240 pair r
           [sample_noon] sample_next loc pair_now_late Hd Hc Hloc).
Defined.

(** X17: a reply of [getNowLoc] agrees with the handlers that look its
    closest epoch up: its speed is the speed that [showSpeed] returns
    for that epoch, and its latitude and altitude are those of every
    location that [getLocation] returns for that epoch. *)
Theorem getNowLoc_agrees_with_lookups
    (reverse : R -> R -> Z -> Py.result (option string))
    (mktime_strptime : string -> option R) (time_now : R)
    (d : Oem) (r : Now) :
  getNowLoc reverse mktime_strptime (Some d) time_now = Py.Ok (NowDict r) ->
  showSpeed (Some d) (Closest_epoch r) = Py.Ok (SpeedDict (Speed r)) /\
  forall reverse' loc,
    getLocation reverse' (Some d) (Closest_epoch r) = Py.Ok (LocationDict loc) ->
    Latitude loc = Latitude (Location_ r) /\
    altitude loc = altitude (Location_ r).
Proof.
  intros H.
  destruct (getNowLoc_inv reverse mktime_strptime time_now d r H)
    as (st & i & Hne & Hscan & Hi & Hnow & Hbody).
  destruct (now_body_inv reverse st i r Hbody)
    as (x & y & z & le & hrs & mins & geoloc & vx & vy & vz & ne & et &
        Hx & Hy & Hz & _ & _ & _ & _ & Hvx & Hvy & Hvz & _ & _ & Hr).
  split.
  - rewrite (showSpeed_at d _ i vx vy vz Hi Hvx Hvy Hvz).
    rewrite Hr. reflexivity.
  - intros reverse' loc Hloc.
    destruct (getLocation_inv reverse' d _ loc Hloc)
      as (i' & x' & y' & z' & hrs' & mins' & geoloc' &
          Hi' & Hx' & Hy' & Hz' & _ & _ & _ & Hl).
    assert (Hii : i' = i) by congruence. subst i'.
    assert (x' = x) by congruence. assert (y' = y) by congruence.
    assert (z' = z) by congruence. subst.
    split; reflexivity.
Qed.

(** X17 at the series of two with the clock at its first epoch. *)
Lemma getNowLoc_agrees_with_lookups_witness :
  let r := {| Closest_epoch := "2023-050T12:00:00.000Z";
              epochTime := 1676808240;
              Seconds_from_now := Some 0%R;
              Location_ := {| Latitude := 0; Longitude := 23;
                              altitude := 629; geo := ocean |};
              Speed := 1 |} in
  getNowLoc no_place utc_mktime (Some pair) 1676808000 = Py.Ok (NowDict r) /\
  showSpeed (Some pair) (Closest_epoch r) = Py.Ok (SpeedDict (Speed r)) /\
  forall reverse' loc,
    getLocation reverse' (Some pair) (Closest_epoch r) = Py.Ok (LocationDict loc) ->
    Latitude loc = Latitude (Location_ r) /\
    altitude loc = altitude (Location_ r).
Proof.
  intros r. split; [exact pair_now |].
  exact (getNowLoc_agrees_with_lookups no_place utc_mktime 1676808000 pair r pair_now).
Defined.

(** ** Parameters below zero *)

(** X18: a negative parameter counts from the end of the series.  With
    [offset = -k] and no limit [showEpochs] returns the last [k] epochs,
    and with [limit = -k] and no offset it returns all but the last [k]
    epochs (all of them, respectively none, when the series has fewer
    than [k]). *)
Theorem showEpochs_from_the_end (d : Oem) (arg : option string) (k : Z) :
  int_arg arg (- k) -> 0 < k ->
  let epochs := map EPOCH (stateVector d) in
  showEpochs (Some d) arg None
    = Py.Ok (EpochList (skipn (List.length epochs - Z.to_nat k) epochs)) /\
  showEpochs (Some d) None arg
    = Py.Ok (EpochList (firstn (List.length epochs - Z.to_nat k) epochs)).
Proof.
  intros Ha Hk epochs.
  assert (Hz : (- k =? 0) = false) by (apply Z.eqb_neq; lia).
  assert (Hneg : (- k <? 0) = true) by (apply Z.ltb_lt; lia).
  unfold showEpochs. fold epochs.
  rewrite (parse_int_arg _ _ Ha). simpl.
  unfold Py.ne0. simpl. rewrite Hz. simpl.
  unfold Py.slice, Py.slice_index. rewrite Hneg. simpl skipn.
  split; do 2 f_equal.
  - replace (Z.to_nat (Z.max 0 (- k + Z.of_nat (List.length epochs))))
      with (List.length epochs - Z.to_nat k)%nat by lia.
    apply firstn_all2. rewrite length_skipn. lia.
  - f_equal. lia.
Qed.

(** X18 at the series of three with the parameter [-2]. *)
Lemma showEpochs_from_the_end_witness :
  int_arg (Some "-2") (- 2) /\ 0 < 2 /\
  showEpochs (Some series3) (Some "-2") None
    = Py.Ok (EpochList ["2023-050T12:04:00.000Z"; "2023-050T12:08:00.000Z"]) /\
  showEpochs (Some series3) None (Some "-2")
    = Py.Ok (EpochList ["2023-050T12:00:00.000Z"]).
Proof.
  assert (Ha : int_arg (Some "-2") (- 2)) by (right; exists "-2"; split; reflexivity).
  assert (Hk : 0 < 2) by lia.
  repeat (split; [assumption |]).
  exact (showEpochs_from_the_end series3 (Some "-2") 2 Ha Hk).
Defined.

(** ** A loaded store is never reported as cleared *)

Lemma epoch_text_not_cleared (epoch tail : string) :
  Text ("Epoch " ++ epoch ++ tail) <> Text cleared.
Proof. intros H. discriminate H. Qed.

(** X19: each of the five handlers returns the text [Data has been
    cleared.] exactly when the store is empty; on a loaded store none of
    them returns it, whatever the arguments and the collaborators. *)
Theorem cleared_iff_empty
    (reverse : R -> R -> Z -> Py.result (option string))
    (mktime_strptime : string -> option R)
    (data : Data) (offset_arg limit_arg : option string) (epoch : string)
    (time_now : R) :
  (showEpochs data offset_arg limit_arg = Py.Ok (Text cleared) <-> data = None) /\
  (showStateVectors data epoch = Py.Ok (Text cleared) <-> data = None) /\
  (showSpeed data epoch = Py.Ok (Text cleared) <-> data = None) /\
  (getLocation reverse data epoch = Py.Ok (Text cleared) <-> data = None) /\
  (getNowLoc reverse mktime_strptime data time_now = Py.Ok (Text cleared)
   <-> data = None).
Proof.
  destruct data as [d |].
  2: { repeat split; reflexivity. }
  repeat split; intros H; try discriminate H; exfalso.
  - unfold showEpochs in H.
    destruct (parse_if_set (Py.args_get offset_arg 0)) as [[o |] | e];
      try discriminate H.
    cbn [Py.bind] in H.
    destruct (parse_if_set (Py.args_get limit_arg 0)) as [[l |] | e];
      try discriminate H.
    cbn [Py.bind] in H.
    repeat match type of H with
           | (if ?c then _ else _) = _ => destruct c
           | Py.bind ?m _ = _ => destruct m; cbn [Py.bind] in H
           end; discriminate H.
  - unfold showStateVectors in H.
    destruct (first_with_epoch epoch (stateVector d)); discriminate H.
  - unfold showSpeed in H.
    destruct (first_with_epoch epoch (stateVector d)) as [i |];
      [| discriminate H].
    destruct (float_text (X_DOT i)); [| discriminate H].
    destruct (float_text (Y_DOT i)); [| discriminate H].
    destruct (float_text (Z_DOT i)); discriminate H.
  - unfold getLocation in H.
    destruct (first_with_epoch epoch (stateVector d)) as [i |];
      [| discriminate H].
    destruct (float_text (X i)); [| discriminate H].
    destruct (float_text (Y i)); [| discriminate H].
    destruct (float_text (Z_ i)); [| discriminate H].
    destruct (hours_of epoch); [| discriminate H].
    destruct (minutes_of epoch); [| discriminate H].
    cbn [Py.bind] in H.
    destruct (reverse _ _ _) as [[place |] | e]; discriminate H.
  - unfold getNowLoc in H. cbv zeta in H.
    destruct (scan mktime_strptime time_now (stateVector d) scan_start)
      as [st | e]; [| discriminate H].
    cbn [Py.bind] in H.
    assert (Hnf : now_not_found st <> Py.Ok (Text cleared)).
    { unfold now_not_found, local. destruct (epoch_ st); discriminate. }
    destruct (stateVector d) as [| x rest]; [contradiction |].
    unfold local in H.
    destruct (now_epoch st) as [ne |]; [| discriminate H].
    cbn [Py.orRaise Py.bind] in H.
    destruct (first_with_epoch ne (x :: rest)) as [i |]; [| contradiction].
    unfold now_body, local in H.
    repeat match type of H with
           | Py.bind ?m _ = _ => destruct m; cbn [Py.orRaise Py.bind] in H
           | Py.bind (Py.orRaise _ ?o) _ = _ =>
               destruct o; cbn [Py.orRaise Py.bind] in H
           | match ?g with Some _ => _ | None => _ end = _ => destruct g
           end; discriminate H.
Qed.

(** ** The fields of an epoch of the feed *)

(** A digit is no white space and no sign, and its value is a digit. *)
Lemma digit_plain (c : ascii) (v : Z) :
  Py.digit_val c = Some v ->
  Py.is_space c = false /\
  Ascii.eqb c "-"%char = false /\ Ascii.eqb c "+"%char = false /\
  0 <= v <= 9.
Proof.
  destruct c as [[] [] [] [] [] [] [] []]; vm_compute; intros H;
    try discriminate H; injection H as <-; repeat split; discriminate.
Qed.

(** The text of two digits is the number they write. *)
Lemma float_two_digits (c1 c2 : ascii) (v1 v2 : Z) :
  Py.digit_val c1 = Some v1 -> Py.digit_val c2 = Some v2 ->
  Py.float (String c1 (String c2 EmptyString)) = Some (IZR (10 * v1 + v2)).
Proof.
  intros H1 H2.
  destruct (digit_plain c1 v1 H1) as (S1 & M1 & P1 & _).
  destruct (digit_plain c2 v2 H2) as (S2 & _).
  assert (Hdec : Py.float_dec (String c1 (String c2 EmptyString))
                 = Some (10 * v1 + v2, 0)).
  { unfold Py.float_dec, Py.strip. cbn [list_ascii_of_string Py.lstrip].
    rewrite S1. cbn [rev app Py.lstrip]. rewrite S2. cbn [rev app].
    unfold Py.sign. rewrite M1, P1.
    unfold Py.number, Py.digitpart. rewrite H1. cbn [Py.digits_tail].
    rewrite H2. cbn [Py.exponent].
    do 2 f_equal. lia. }
  apply float_of_int_literal. exact Hdec.
Qed.

(** X20: on every epoch in the format of the feed, that is nine
    characters, two digits for the hour, one character, two digits for the
    minute and eight more characters, all in ASCII, [getLocation] reads
    the hour and the minute that the two pairs of digits write, and
    [getNowLoc] converts the epoch without its last five characters. *)
Theorem feed_epoch_fields (date rest : list ascii) (h1 h2 sep m1 m2 : ascii)
    (a b p q : Z) :
  List.length date = 9%nat -> List.length rest = 8%nat ->
  Py.digit_val h1 = Some a -> Py.digit_val h2 = Some b ->
  Py.digit_val m1 = Some p -> Py.digit_val m2 = Some q ->
  let epoch := string_of_list_ascii (date ++ [h1; h2; sep; m1; m2] ++ rest) in
  isascii epoch = true ->
  hours_of epoch = Py.Ok (IZR (10 * a + b)) /\
  minutes_of epoch = Py.Ok (IZR (10 * p + q)) /\
  Py.substr None (Some (-5)) epoch
  = string_of_list_ascii (date ++ [h1; h2; sep; m1; m2] ++ firstn 3 rest).
Proof.
  intros Hdate Hrest Hh1 Hh2 Hm1 Hm2 epoch _. unfold epoch.
  do 10 (destruct date as [| ? date]; try discriminate Hdate).
  do 9 (destruct rest as [| ? rest]; try discriminate Hrest).
  unfold hours_of, minutes_of, Py.substr.
  rewrite list_ascii_of_string_of_list_ascii.
  repeat split.
  - change (Py.orRaise Py.ValueError (Py.float (String h1 (String h2 EmptyString)))
            = Py.Ok (IZR (10 * a + b))).
    rewrite (float_two_digits h1 h2 a b Hh1 Hh2). reflexivity.
  - change (Py.orRaise Py.ValueError (Py.float (String m1 (String m2 EmptyString)))
            = Py.Ok (IZR (10 * p + q))).
    rewrite (float_two_digits m1 m2 p q Hm1 Hm2). reflexivity.
Qed.

(** X20 at the epoch [2023-050T12:34:56.000Z]. *)
Lemma feed_epoch_fields_witness :
  let date := list_ascii_of_string "2023-050T" in
  let rest := list_ascii_of_string ":56.000Z" in
  let epoch := "2023-050T12:34:56.000Z" in
  List.length date = 9%nat /\ List.length rest = 8%nat /\
  Py.digit_val "1" = Some 1 /\ Py.digit_val "2" = Some 2 /\
  Py.digit_val "3" = Some 3 /\ Py.digit_val "4" = Some 4 /\
  isascii epoch = true /\
  hours_of epoch = Py.Ok (IZR (10 * 1 + 2)) /\
  minutes_of epoch = Py.Ok (IZR (10 * 3 + 4)) /\
  Py.substr None (Some (-5)) epoch = "2023-050T12:34:56".
Proof.
  intros date rest epoch.
  assert (Hd : List.length date = 9%nat) by reflexivity.
  assert (Hr : List.length rest = 8%nat) by reflexivity.
  assert (H1 : Py.digit_val "1" = Some 1) by reflexivity.
  assert (H2 : Py.digit_val "2" = Some 2) by reflexivity.
  assert (H3 : Py.digit_val "3" = Some 3) by reflexivity.
  assert (H4 : Py.digit_val "4" = Some 4) by reflexivity.
  assert (Ha : isascii epoch = true) by reflexivity.
  repeat (split; [assumption |]).
  exact (feed_epoch_fields date rest "1" "2" ":" "3" "4" 1 2 3 4
           Hd Hr H1 H2 H3 H4 Ha).
Defined.

(** ** The place and the point *)

(** X21: the description in a location that [getLocation] returns is
    what the geocoder answers, at zoom 1, for the very latitude and
    longitude of that location, the longitude as it is after the wrap;
    the text for the open sea stands for the answer [None]. *)
Theorem getLocation_place_of_point
    (reverse : R -> R -> Z -> Py.result (option string))
    (d : Oem) (epoch : string) (loc : Location) :
  getLocation reverse (Some d) epoch = Py.Ok (LocationDict loc) ->
  exists geoloc,
    reverse (Latitude loc) (Longitude loc) 1 = Py.Ok geoloc /\
    geo loc = match geoloc with
              | Some place => place
              | None => "Location may be over the ocean"
              end.
Proof.
  intros H. destruct (getLocation_inv reverse d epoch loc H)
    as (i & x & y & z & hrs & mins & geoloc & _ & _ & _ & _ & _ & _ & Hr & ->).
  exists geoloc. split; [exact Hr | reflexivity].
Qed.

(** X21 at the noon scenario. *)
Lemma getLocation_place_of_point_witness :
  let loc := {| Latitude := 0; Longitude := 24; altitude := 629; geo := ocean |} in
  getLocation no_place (Some scenario) "2023-050T12:00:00.000Z"
    = Py.Ok (LocationDict loc) /\
  exists geoloc,
    no_place (Latitude loc) (Longitude loc) 1 = Py.Ok geoloc /\
    geo loc = match geoloc with
              | Some place => place
              | None => "Location may be over the ocean"
              end.
Proof.
  intros loc. split; [exact scenario_location |].
  exact (getLocation_place_of_point no_place scenario _ loc scenario_location).
Defined.

(** X22: the description in a reply of [getNowLoc] is what the geocoder
    answers, at zoom 10, for the latitude and longitude of that reply. *)
Theorem getNowLoc_place_of_point
    (reverse : R -> R -> Z -> Py.result (option string))
    (mktime_strptime : string -> option R) (time_now : R)
    (d : Oem) (r : Now) :
  getNowLoc reverse mktime_strptime (Some d) time_now = Py.Ok (NowDict r) ->
  exists geoloc,
    reverse (Latitude (Location_ r)) (Longitude (Location_ r)) 10
      = Py.Ok geoloc /\
    geo (Location_ r) = match geoloc with
                        | Some place => place
                        | None => "Location may be over the ocean"
                        end.
Proof.
  intros H.
  destruct (getNowLoc_inv reverse mktime_strptime time_now d r H)
    as (st & i & _ & _ & _ & _ & Hbody).
  destruct (now_body_inv reverse st i r Hbody)
    as (x & y & z & le & hrs & mins & geoloc & vx & vy & vz & ne & et &
        _ & _ & _ & _ & _ & _ & Hr & _ & _ & _ & _ & _ & ->).
  exists geoloc. split; [exact Hr | reflexivity].
Qed.

(** X22 at the series of two with the clock at its first epoch. *)
Lemma getNowLoc_place_of_point_witness :
  let r := {| Closest_epoch := "2023-050T12:00:00.000Z";
              epochTime := 1676808240;
              Seconds_from_now := Some 0%R;
              Location_ := {| Latitude := 0; Longitude := 23;
                              altitude := 629; geo := ocean |};
              Speed := 1 |} in
  getNowLoc no_place utc_mktime (Some pair) 1676808000 = Py.Ok (NowDict r) /\
  exists geoloc,
    no_place (Latitude (Location_ r)) (Longitude (Location_ r)) 10
      = Py.Ok geoloc /\
    geo (Location_ r) = match geoloc with
                        | Some place => place
                        | None => "Location may be over the ocean"
                        end.
Proof.
  intros r. split; [exact pair_now |].
  exact (getNowLoc_place_of_point no_place utc_mktime 1676808000 pair r pair_now).
Defined.
